(** * An in-memory hierarchical file system: the engine behind the FUSE bridge

    Shallow embedding of [hw2&3/hierarchicalFS.py] (file content kept as one
    byte string) and [hw2&3/hierarchicalBlockFS.py] (file content kept as a
    list of [BLOCKSIZE]-byte blocks), followed by the properties of the
    engine that the specification states.

    The sources are Python 2 programs ([bytes = str], [print] of a tuple,
    [offset/BLOCKSIZE] used as a list index): [/] on integers is floor
    division, [%] is the modulo with the sign of the divisor, and a file's
    content is a [str], modelled here as a list of bytes. *)

From Stdlib Require Import List ZArith Lia Bool String Ascii Permutation.
From Stdlib Require Import Strings.Byte.
Import ListNotations.
Open Scope Z_scope.

Set Implicit Arguments.
Set Warnings "-register-all".

(** ** Python primitives *)

Module Py.

Definition bytes := list byte.

(** [len(x)] as a Python integer. *)
Definition len {A : Type} (l : list A) : Z := Z.of_nat (List.length l).

(** One bound of a slice: a negative bound counts from the end, and every
    bound is clipped to [0, n]. *)
Definition clamp (n i : Z) : Z :=
  if i <? 0 then Z.max (i + n) 0 else Z.min i n.

(** [l[lo:hi]]. *)
Definition slice {A : Type} (l : list A) (lo hi : Z) : list A :=
  let a := clamp (len l) lo in
  let b := clamp (len l) hi in
  firstn (Z.to_nat (b - a)) (skipn (Z.to_nat a) l).

(** [l[lo:]]. *)
Definition slice_from {A : Type} (l : list A) (lo : Z) : list A :=
  slice l lo (len l).

(** [l[:hi]]. *)
Definition slice_to {A : Type} (l : list A) (hi : Z) : list A :=
  slice l 0 hi.

(** An index as [l[i]] reads it: a negative one counts from the end. *)
Definition norm {A : Type} (l : list A) (i : Z) : Z :=
  if i <? 0 then i + len l else i.

(** [l[i]] on a list: [None] stands for [IndexError]. *)
Definition index {A : Type} (l : list A) (i : Z) : option A :=
  let j := norm l i in
  if (0 <=? j) && (j <? len l) then nth_error l (Z.to_nat j) else None.

(** [del l[i]] for an index in range. *)
Definition del {A : Type} (l : list A) (i : Z) : list A :=
  firstn (Z.to_nat (norm l i)) l ++ skipn (S (Z.to_nat (norm l i))) l.

(** [l[i] = x] for an index in range. *)
Definition set_index {A : Type} (l : list A) (i : Z) (x : A) : list A :=
  firstn (Z.to_nat (norm l i)) l ++ x :: skipn (S (Z.to_nat (norm l i))) l.

Definition slash : ascii := "/"%char.

(** [s.split('/')]: the pieces between separators, empty pieces kept. *)
Fixpoint split (s : string) : list string :=
  match s with
  | EmptyString => [EmptyString]
  | String c r =>
      if Ascii.eqb c slash then EmptyString :: split r
      else match split r with
           | [] => [String c EmptyString]
           | h :: t => String c h :: t
           end
  end.

(** [s.rfind('/')]: the index of the last separator, [-1] when there is
    none. *)
Fixpoint rfind (s : string) : Z :=
  match s with
  | EmptyString => -1
  | String c r =>
      let k := rfind r in
      if 0 <=? k then k + 1
      else if Ascii.eqb c slash then 0 else -1
  end.

Definition str_slice (s : string) (lo hi : Z) : string :=
  string_of_list_ascii (slice (list_ascii_of_string s) lo hi).

Definition str_len (s : string) : Z := len (list_ascii_of_string s).

(** *** Dictionaries

    A [dict] is kept as an association list without duplicate keys.  The
    order of the list is a choice of this representation: lookup,
    assignment and [pop] do not depend on it, and the two operations that
    iterate over a dictionary ([readdir], [listxattr]) take the order of
    iteration as a parameter. *)

Definition dict (V : Type) := list (string * V).

Fixpoint get {V : Type} (d : dict V) (k : string) : option V :=
  match d with
  | [] => None
  | (k', v) :: r => if String.eqb k k' then Some v else get r k
  end.

(** [d[k] = v]: replaces the value in place, or appends a new key. *)
Fixpoint set {V : Type} (d : dict V) (k : string) (v : V) : dict V :=
  match d with
  | [] => [(k, v)]
  | (k', v') :: r =>
      if String.eqb k k' then (k', v) :: r else (k', v') :: set r k v
  end.

(** The dictionary left by [d.pop(k)]. *)
Fixpoint remove {V : Type} (d : dict V) (k : string) : dict V :=
  match d with
  | [] => []
  | (k', v') :: r =>
      if String.eqb k k' then r else (k', v') :: remove r k
  end.

End Py.

Import Py.

(** ** The engine's state *)

(** The exceptions an operation can end with.  [FuseOSError] carries the
    errno the bridge reports; every other exception is one the operation
    does not catch. *)
Inductive exn : Type :=
| KeyError
| TypeError
| IndexError
| AttributeError
| FuseOSError (errno : Z)
| Unmodelled.

Definition ENOENT : Z := 2.
Definition ENOTEMPTY : Z := 39.

Definition S_IFDIR : Z := 16384.   (* 0o040000 *)
Definition S_IFLNK : Z := 40960.   (* 0o120000 *)
Definition S_IFREG : Z := 32768.   (* 0o100000 *)

Inductive outcome (A : Type) : Type :=
| Ok (a : A)
| Raise (e : exn).
Arguments Ok {A} a.
Arguments Raise {A} e.

(** The keys of a node's dictionary other than ['files'].  [st_mode] and
    [st_nlink] are set by every constructor of a node; the root has no
    [st_size], a symbolic link has no timestamps, [st_uid] and [st_gid]
    appear with [chown] and [attrs] with [setxattr].  A reading of the
    clock ([time()]) is kept as an integer. *)
Record meta : Type := mkMeta {
  st_mode : Z;
  st_nlink : Z;
  st_size : option Z;
  st_ctime : option Z;
  st_mtime : option Z;
  st_atime : option Z;
  st_uid : option Z;
  st_gid : option Z;
  attrs : option (dict bytes)
}.

(** A node of [self.files]: its metadata and, for a directory, the
    dictionary under the key ['files']. *)
Inductive node : Type :=
| Node (m : meta) (files : option (dict node)).

Definition node_meta (n : node) : meta := let 'Node m _ := n in m.
Definition files (n : node) : option (dict node) := let 'Node _ f := n in f.

(** A value of [self.data]: a file's content ([str] in the flat engine,
    a list of blocks in the block engine), a link's text, or the
    [defaultdict] of a directory. *)
Inductive dval : Type :=
| VStr (s : bytes)
| VList (l : list bytes)
| VDict (d : dict dval).

Record state : Type := mkState {
  fs_files : node;   (* self.files['/'] *)
  fs_data : dval;    (* self.data *)
  fs_fd : Z          (* self.fd *)
}.

Definition set_mode (v : Z) (n : node) : node :=
  let 'Node m f := n in
  Node (mkMeta v (st_nlink m) (st_size m) (st_ctime m) (st_mtime m)
          (st_atime m) (st_uid m) (st_gid m) (attrs m)) f.

Definition set_nlink (v : Z) (n : node) : node :=
  let 'Node m f := n in
  Node (mkMeta (st_mode m) v (st_size m) (st_ctime m) (st_mtime m)
          (st_atime m) (st_uid m) (st_gid m) (attrs m)) f.

Definition set_size (v : Z) (n : node) : node :=
  let 'Node m f := n in
  Node (mkMeta (st_mode m) (st_nlink m) (Some v) (st_ctime m) (st_mtime m)
          (st_atime m) (st_uid m) (st_gid m) (attrs m)) f.

Definition set_owner (uid gid : Z) (n : node) : node :=
  let 'Node m f := n in
  Node (mkMeta (st_mode m) (st_nlink m) (st_size m) (st_ctime m) (st_mtime m)
          (st_atime m) (Some uid) (Some gid) (attrs m)) f.

Definition set_times (atime mtime : Z) (n : node) : node :=
  let 'Node m f := n in
  Node (mkMeta (st_mode m) (st_nlink m) (st_size m) (st_ctime m) (Some mtime)
          (Some atime) (st_uid m) (st_gid m) (attrs m)) f.

Definition set_attrs (a : dict bytes) (n : node) : node :=
  let 'Node m f := n in
  Node (mkMeta (st_mode m) (st_nlink m) (st_size m) (st_ctime m) (st_mtime m)
          (st_atime m) (st_uid m) (st_gid m) (Some a)) f.

Definition set_files (kids : dict node) (n : node) : node :=
  let 'Node m _ := n in Node m (Some kids).

(** [Memory.__init__] at clock reading [now]. *)
Definition init (now : Z) : state :=
  mkState
    (Node (mkMeta (Z.lor S_IFDIR 493 (* 0o755 *)) 2 None (Some now) (Some now)
             (Some now) None None None) (Some []))
    (VDict [])
    0.

(** ** References into the two trees

    [traverse] and [traverseparent] return a pointer into [self.files] or
    [self.data], and the operations then mutate the object behind it.  A
    pointer is kept as the path components that lead to the object; reading
    and writing through it walks the tree again. *)

Definition ref := list string.

(** [len(i) > 0]. *)
Definition nonempty (i : string) : bool := 0 <? str_len i.

(** The loop [for i in path.split('/'): p = p['files'][i] if len(i) > 0
    else p] over [self.files]; [None] is the [KeyError] of a missing
    ['files'] key or a missing name. *)
Fixpoint walk (p : node) (comps : list string) : option node :=
  match comps with
  | [] => Some p
  | i :: rest =>
      if nonempty i then
        match files p with
        | None => None
        | Some kids =>
            match get kids i with
            | None => None
            | Some c => walk c rest
            end
        end
      else walk p rest
  end.

(** The tree after the object behind a pointer has been mutated by [f]. *)
Fixpoint update (f : node -> node) (p : node) (comps : list string) : node :=
  match comps with
  | [] => f p
  | i :: rest =>
      if nonempty i then
        match files p with
        | None => p
        | Some kids =>
            match get kids i with
            | None => p
            | Some c => set_files (set kids i (update f c rest)) p
            end
        end
      else update f p rest
  end.

(** The same loop over [self.data], whose dictionaries are [defaultdict]s:
    a missing key is inserted with the value of the factory ([bytes()] or
    [list()]).  Returns the object reached, or the exception, and the store
    as the insertions leave it.  Indexing a [str] or a [list] by a name is
    a [TypeError]. *)
Fixpoint dwalk (factory : dval) (p : dval) (comps : list string)
  : outcome dval * dval :=
  match comps with
  | [] => (Ok p, p)
  | i :: rest =>
      if nonempty i then
        match p with
        | VDict d =>
            let c := match get d i with Some c => c | None => factory end in
            let '(o, c') := dwalk factory c rest in
            (o, VDict (set d i c'))
        | _ => (Raise TypeError, p)
        end
      else dwalk factory p rest
  end.

(** Reading through a pointer into [self.data], without insertion. *)
Fixpoint dlook (p : dval) (comps : list string) : option dval :=
  match comps with
  | [] => Some p
  | i :: rest =>
      if nonempty i then
        match p with
        | VDict d =>
            match get d i with
            | None => None
            | Some c => dlook c rest
            end
        | _ => None
        end
      else dlook p rest
  end.

Fixpoint dupdate (f : dval -> dval) (p : dval) (comps : list string) : dval :=
  match comps with
  | [] => f p
  | i :: rest =>
      if nonempty i then
        match p with
        | VDict d =>
            match get d i with
            | None => p
            | Some c => VDict (set d i (dupdate f c rest))
            end
        | _ => p
        end
      else dupdate f p rest
  end.

(** The two pieces [traverseparent] cuts a path into:
    [path[:path.rfind('/')]] and [path[path.rfind('/')+1:]]. *)
Definition parent_part (path : string) : string :=
  str_slice path 0 (rfind path).
Definition target_part (path : string) : string :=
  str_slice path (rfind path + 1) (str_len path).

(** ** Operations as state transformers that may raise

    An exception does not undo what the operation did before raising it:
    the state is returned in both cases. *)

Definition M (A : Type) : Type := state -> outcome A * state.

Definition ret {A : Type} (a : A) : M A := fun s => (Ok a, s).
Definition raise {A : Type} (e : exn) : M A := fun s => (Raise e, s).
Definition bind {A B : Type} (m : M A) (k : A -> M B) : M B :=
  fun s => match m s with
           | (Ok a, s') => k a s'
           | (Raise e, s') => (Raise e, s')
           end.

Declare Scope fs_scope.
Delimit Scope fs_scope with fs.
Notation "x <- m ;; k" := (bind m (fun x => k))
  (at level 61, m at next level, right associativity) : fs_scope.
Notation "' pat <- m ;; k" := (bind m (fun x => let pat := x in k))
  (at level 61, pat pattern, m at next level, right associativity) : fs_scope.
Notation "m ;; k" := (bind m (fun _ => k))
  (at level 61, right associativity) : fs_scope.
Open Scope fs_scope.

(** [try: m except KeyError: h]. *)
Definition catch_KeyError {A : Type} (m : M A) (h : M A) : M A :=
  fun s => match m s with
           | (Raise KeyError, s') => h s'
           | r => r
           end.

(** *** Reading and writing through pointers *)

(** [self.traverse(path)]: the pointer, or [KeyError]. *)
Definition traverse (path : string) : M ref :=
  fun s => match walk (fs_files s) (split path) with
           | Some _ => (Ok (split path), s)
           | None => (Raise KeyError, s)
           end.

(** [self.traverseparent(path)]: the pointer to the parent and the name of
    the child. *)
Definition traverseparent (path : string) : M (ref * string) :=
  fun s => match walk (fs_files s) (split (parent_part path)) with
           | Some _ => (Ok (split (parent_part path), target_part path), s)
           | None => (Raise KeyError, s)
           end.

(** The dictionary behind a pointer. *)
Definition load (p : ref) : M node :=
  fun s => match walk (fs_files s) p with
           | Some n => (Ok n, s)
           | None => (Raise KeyError, s)
           end.

(** An assignment to a key of the dictionary behind a pointer. *)
Definition store (p : ref) (f : node -> node) : M unit :=
  fun s => (Ok tt, mkState (update f (fs_files s) p) (fs_data s) (fs_fd s)).

(** [p['files']]. *)
Definition children (p : ref) : M (dict node) :=
  n <- load p ;;
  match files n with
  | Some kids => ret kids
  | None => raise KeyError
  end.

(** [p['files'][name]]. *)
Definition child (p : ref) (name : string) : M node :=
  kids <- children p ;;
  match get kids name with
  | Some c => ret c
  | None => raise KeyError
  end.

(** [self.fd += 1; return self.fd]. *)
Definition next_fd : M Z :=
  fun s => (Ok (fs_fd s + 1), mkState (fs_files s) (fs_data s) (fs_fd s + 1)).

(** ** The operations on the name space

    These methods have the same text in both source files. *)

Definition chmod (path : string) (mode : Z) : M Z :=
  p <- traverse path ;;
  store p (fun n => set_mode (Z.land (st_mode (node_meta n)) 258048) n) ;;
                                                      (* 0o770000 *)
  store p (fun n => set_mode (Z.lor (st_mode (node_meta n)) mode) n) ;;
  ret 0.

Definition chown (path : string) (uid gid : Z) : M unit :=
  p <- traverse path ;;
  store p (set_owner uid gid).

(** [create], with the three readings of the clock it takes. *)
Definition create (path : string) (mode : Z) (t1 t2 t3 : Z) : M Z :=
  '(p, tar) <- traverseparent path ;;
  kids <- children p ;;
  store p (set_files
             (set kids tar
                (Node (mkMeta (Z.lor S_IFREG mode) 1 (Some 0) (Some t1)
                         (Some t2) (Some t3) None None None) None))) ;;
  next_fd.

(** [getattr]: the node's dictionary without the key ['files']. *)
Definition getattr (path : string) : M meta :=
  p <- catch_KeyError (traverse path) (raise (FuseOSError ENOENT)) ;;
  n <- load p ;;
  ret (node_meta n).

(** [p.get('attrs', {})]. *)
Definition attrs_or_empty (n : node) : dict bytes :=
  match attrs (node_meta n) with
  | Some a => a
  | None => []
  end.

Definition getxattr (path name : string) : M bytes :=
  p <- traverse path ;;
  n <- load p ;;
  match get (attrs_or_empty n) name with
  | Some v => ret v
  | None => ret []
  end.

(** The order in which Python 2 yields the keys of a [dict] follows the
    slots of its hash table, which depend on the hashes of the keys and on
    the history of the table.  That order is not modelled: an iteration
    takes a [key_order], the arrangement in which the keys come out, and
    the properties below hold for every arrangement. *)
Definition key_order : Type := list string -> list string.

(** [attrs.keys()]. *)
Definition listxattr (order : key_order) (path : string) : M (list string) :=
  p <- traverse path ;;
  n <- load p ;;
  ret (order (map fst (attrs_or_empty n))).

(** [removexattr]: [del attrs[name]] acts on the node's own ['attrs']
    dictionary when there is one, and on a fresh [{}] otherwise. *)
Definition removexattr (path name : string) : M unit :=
  p <- traverse path ;;
  n <- load p ;;
  match attrs (node_meta n) with
  | Some a => store p (set_attrs (remove a name))
  | None => ret tt
  end.

(** [setxattr]: [options] and [position] are ignored. *)
Definition setxattr (path name : string) (value : bytes) : M unit :=
  p <- traverse path ;;
  n <- load p ;;
  store p (set_attrs (set (attrs_or_empty n) name value)).

Definition open : M Z := next_fd.

(** [['.', '..'] + [x for x in p]]. *)
Definition readdir (order : key_order) (path : string) : M (list string) :=
  p <- traverse path ;;
  kids <- children p ;;
  ret ("."%string :: ".."%string :: order (map fst kids)).

Definition rmdir (path : string) : M unit :=
  '(p, tar) <- traverseparent path ;;
  c <- child p tar ;;
  match files c with
  | None => raise KeyError
  | Some ckids =>
      if 0 <? len ckids then raise (FuseOSError ENOTEMPTY)
      else
        kids <- children p ;;
        store p (set_files (remove kids tar)) ;;
        store p (fun n => set_nlink (st_nlink (node_meta n) - 1) n)
  end.

Definition unlink (path : string) : M unit :=
  '(p, tar) <- traverseparent path ;;
  kids <- children p ;;
  match get kids tar with
  | None => raise KeyError
  | Some _ => store p (set_files (remove kids tar))
  end.

(** [utimens] with [times] given; without, both are the clock reading. *)
Definition utimens (path : string) (atime mtime : Z) : M unit :=
  p <- traverse path ;;
  store p (set_times atime mtime).

(** [statfs]: [f_bsize], [f_blocks], [f_bavail]. *)
Definition statfs : Z * Z * Z := (512, 4096, 2048).

(** ** The operations that also touch [self.data]

    The two engines differ in the factory of the [defaultdict]s:
    [bytes] in the flat engine, [list] in the block engine. *)

Section Engine.

Variable factory : dval.

(** [self.traverse(path, True)]: missing names are inserted on the way. *)
Definition traverse_data (path : string) : M ref :=
  fun s =>
    let '(o, d') := dwalk factory (fs_data s) (split path) in
    let s' := mkState (fs_files s) d' (fs_fd s) in
    match o with
    | Ok _ => (Ok (split path), s')
    | Raise e => (Raise e, s')
    end.

(** [self.traverseparent(path, True)]. *)
Definition traverseparent_data (path : string) : M (ref * string) :=
  fun s =>
    let '(o, d') := dwalk factory (fs_data s) (split (parent_part path)) in
    let s' := mkState (fs_files s) d' (fs_fd s) in
    match o with
    | Ok _ => (Ok (split (parent_part path), target_part path), s')
    | Raise e => (Raise e, s')
    end.

Definition dload (d : ref) : M dval :=
  fun s => match dlook (fs_data s) d with
           | Some v => (Ok v, s)
           | None => (Raise KeyError, s)
           end.

Definition dstore (d : ref) (f : dval -> dval) : M unit :=
  fun s => (Ok tt, mkState (fs_files s) (dupdate f (fs_data s) d) (fs_fd s)).

(** [d[k]] for a name [k]: a [defaultdict] inserts the missing key. *)
Definition getitem (d : ref) (k : string) : M dval :=
  x <- dload d ;;
  match x with
  | VDict m =>
      match get m k with
      | Some v => ret v
      | None => dstore d (fun _ => VDict (set m k factory)) ;; ret factory
      end
  | _ => raise TypeError
  end.

(** [d[k] = v] for a name [k]. *)
Definition setitem (d : ref) (k : string) (v : dval) : M unit :=
  x <- dload d ;;
  match x with
  | VDict m => dstore d (fun _ => VDict (set m k v))
  | _ => raise TypeError
  end.

(** [d.pop(k)]: no insertion here, a missing key is a [KeyError]. *)
Definition dpop (d : ref) (k : string) : M dval :=
  x <- dload d ;;
  match x with
  | VDict m =>
      match get m k with
      | Some v => dstore d (fun _ => VDict (remove m k)) ;; ret v
      | None => raise KeyError
      end
  | VStr _ => raise AttributeError
  | VList _ => raise TypeError
  end.

Definition mkdir (path : string) (mode : Z) (t1 t2 t3 : Z) : M unit :=
  '(p, tar) <- traverseparent path ;;
  kids <- children p ;;
  store p (set_files
             (set kids tar
                (Node (mkMeta (Z.lor S_IFDIR mode) 2 (Some 0) (Some t1)
                         (Some t2) (Some t3) None None None) (Some [])))) ;;
  store p (fun n => set_nlink (st_nlink (node_meta n) + 1) n) ;;
  '(d, d1) <- traverseparent_data path ;;
  setitem d d1 (VDict []).

Definition symlink (target : string) (source : bytes) : M unit :=
  '(p, tar) <- traverseparent target ;;
  kids <- children p ;;
  store p (set_files
             (set kids tar
                (Node (mkMeta (Z.lor S_IFLNK 511 (* 0o777 *)) 1
                         (Some (len source)) None None None None None None)
                   None))) ;;
  '(d, d1) <- traverseparent_data target ;;
  setitem d d1 (VStr source).

Definition readlink (path : string) : M dval :=
  d <- traverse_data path ;;
  dload d.

(** *** [rename]

    [pn['files'][pn1] = po['files'].pop(po1)] evaluates the [pop] first.
    When the new parent lies inside the subtree that the [pop] detaches
    (a directory renamed into itself), the assignment lands in an object
    no longer reachable from the root: the tree is left as the [pop] left
    it.  [before] is the new parent as it was before the [pop]. *)

Definition pop_child (po : ref) (po1 : string) : M node :=
  kids <- children po ;;
  match get kids po1 with
  | None => raise KeyError
  | Some c => store po (set_files (remove kids po1)) ;; ret c
  end.

Definition put_child (pn : ref) (pn1 : string) (moved before : node)
  : M unit :=
  fun s =>
    match walk (fs_files s) pn with
    | Some n =>
        match files n with
        | Some kids => store pn (set_files (set kids pn1 moved)) s
        | None => (Raise KeyError, s)
        end
    | None =>
        match files before with
        | Some _ => (Ok tt, s)
        | None => (Raise KeyError, s)
        end
    end.

Definition put_item (dn : ref) (dn1 : string) (moved before : dval)
  : M unit :=
  fun s =>
    match dlook (fs_data s) dn with
    | Some _ => setitem dn dn1 moved s
    | None =>
        match before with
        | VDict _ => (Ok tt, s)
        | _ => (Raise TypeError, s)
        end
    end.

Definition rename (old new : string) : M unit :=
  '(po, po1) <- traverseparent old ;;
  '(pn, pn1) <- traverseparent new ;;
  c <- child po po1 ;;
  (if Z.land (st_mode (node_meta c)) 258048 =? S_IFDIR then
     store po (fun n => set_nlink (st_nlink (node_meta n) - 1) n) ;;
     store pn (fun n => set_nlink (st_nlink (node_meta n) + 1) n)
   else ret tt) ;;
  before <- load pn ;;
  moved <- pop_child po po1 ;;
  put_child pn pn1 moved before ;;
  '(do, do1) <- traverseparent_data old ;;
  '(dn, dn1) <- traverseparent_data new ;;
  dbefore <- dload dn ;;
  dmoved <- dpop do do1 ;;
  put_item dn dn1 dmoved dbefore.

End Engine.

(** ** File content in the flat engine ([hierarchicalFS.py]) *)

Module HFS.

(** [defaultdict(bytes)]. *)
Definition factory : dval := VStr [].

(** No operation of this engine stores a list; slicing a dictionary is a
    [TypeError] (a slice is not hashable). *)
Definition content (v : dval) : M bytes :=
  match v with
  | VStr s => ret s
  | VDict _ => raise TypeError
  | VList _ => raise Unmodelled
  end.

Definition read (path : string) (size offset : Z) : M bytes :=
  d <- traverse_data factory path ;;
  v <- dload d ;;
  s <- content v ;;
  ret (slice s offset (offset + size)).

(** [d = d[:length]] binds the local name [d] to the prefix; the stored
    string is not assigned to. *)
Definition truncate (path : string) (length : Z) : M unit :=
  d <- traverse_data factory path ;;
  v <- dload d ;;
  s <- content v ;;
  let d' := slice_to s length in
  p <- traverse path ;;
  store p (set_size length).

Definition write (path : string) (data : bytes) (offset : Z) : M Z :=
  p <- traverse path ;;
  '(d, d1) <- traverseparent_data factory path ;;
  v <- getitem factory d d1 ;;
  s <- content v ;;
  setitem d d1 (VStr (slice_to s offset ++ data)) ;;
  v' <- getitem factory d d1 ;;
  s' <- content v' ;;
  store p (set_size (len s')) ;;
  ret (len data).

Definition mkdir := mkdir factory.
Definition rename := rename factory.
Definition symlink := symlink factory.
Definition readlink := readlink factory.

End HFS.

(** ** File content in the block engine ([hierarchicalBlockFS.py]) *)

Module HBFS.

Definition BLOCKSIZE : Z := 512.

(** [defaultdict(list)]. *)
Definition factory : dval := VList [].

(** Exceptions in code that does not touch the state. *)
Definition obind {A B : Type} (m : outcome A) (k : A -> outcome B)
  : outcome B :=
  match m with
  | Ok a => k a
  | Raise e => Raise e
  end.

Definition lift {A : Type} (m : outcome A) : M A := fun s => (m, s).

(** [d[i]] for an integer [i]. *)
Definition blk (d : list bytes) (i : Z) : outcome bytes :=
  match index d i with
  | Some b => Ok b
  | None => Raise IndexError
  end.

(** What integer indexing and [len] see of a stored value: the blocks of
    a list, the one-character strings of a [str].  Indexing the
    [defaultdict] of a directory by an integer is not covered. *)
Definition blocks_of (v : dval) : M (list bytes) :=
  match v with
  | VList l => ret l
  | VStr s => ret (map (fun b => [b]) s)
  | VDict _ => raise Unmodelled
  end.

(** [data_str = data_str + d[j]], for [k] consecutive indices from [j]:
    the body of a [while] loop whose counter runs to a fixed bound. *)
Fixpoint append_blocks (k : nat) (d : list bytes) (j : Z) (data_str : bytes)
  : outcome bytes :=
  match k with
  | O => Ok data_str
  | S k' =>
      obind (blk d j) (fun b => append_blocks k' d (j + 1) (data_str ++ b))
  end.

(** The body of [read] once [d] is at hand. *)
Definition read_blocks (d : list bytes) (size offset : Z) : outcome bytes :=
  let offset_block := offset / BLOCKSIZE in
  let reminder_len := offset mod BLOCKSIZE in
  if size <=? BLOCKSIZE - reminder_len then
    (* condition1: read one block *)
    obind (blk d offset_block) (fun b =>
    Ok (slice b reminder_len (reminder_len + size)))
  else if (BLOCKSIZE - reminder_len <? size)
          && (size <=? 2 * BLOCKSIZE - reminder_len) then
    (* condition2: read two blocks *)
    if len d <? offset_block + 1 then
      obind (blk d offset_block) (fun b =>
      Ok (slice_from b reminder_len))
    else
      obind (blk d offset_block) (fun b0 =>
      obind (blk d (offset_block + 1)) (fun b1 =>
      Ok (slice_from b0 reminder_len
            ++ slice_to b1 (size - (BLOCKSIZE - reminder_len)))))
  else
    (* condition3: read more than two blocks *)
    obind (blk d offset_block) (fun b0 =>
    let data_str := slice_from b0 reminder_len in
    let full_blocks_num := (size - (BLOCKSIZE - reminder_len)) / BLOCKSIZE in
    if len d <? offset_block + full_blocks_num + 1 then
      (* i = 1; while (offset_block + i < len(d)) *)
      append_blocks (Z.to_nat (len d - (offset_block + 1))) d
        (offset_block + 1) data_str
    else
      (* i = 1; while (i <= full_blocks_num) *)
      obind (append_blocks (Z.to_nat full_blocks_num) d (offset_block + 1)
               data_str) (fun data_str =>
      let i := 1 + Z.max 0 full_blocks_num in
      obind (blk d (offset_block + i)) (fun b =>
      Ok (data_str
            ++ slice_to b (size - full_blocks_num * BLOCKSIZE
                           - (BLOCKSIZE - reminder_len)))))).

Definition read (path : string) (size offset : Z) : M bytes :=
  d <- traverse_data factory path ;;
  v <- dload d ;;
  l <- blocks_of v ;;
  lift (read_blocks l size offset).

(** [d.append(data[i*BLOCKSIZE:(i+1)*BLOCKSIZE])] for [k] consecutive
    values of [i]. *)
Fixpoint append_slices (k : nat) (data : bytes) (i : Z) (d : list bytes)
  : list bytes :=
  match k with
  | O => d
  | S k' =>
      append_slices k' data (i + 1)
        (d ++ [slice data (i * BLOCKSIZE) ((i + 1) * BLOCKSIZE)])
  end.

(** [i = 0; while (i < n): d.append(...); i = i + 1] followed by
    [d.append(data[i*BLOCKSIZE:])]. *)
Definition rechunk (data : bytes) (n : Z) (d : list bytes) : list bytes :=
  append_slices (Z.to_nat n) data 0 d
    ++ [slice_from data (Z.max 0 n * BLOCKSIZE)].

(** The string [write] builds from the old blocks and [data]. *)
Definition splice (data_blocks : list bytes) (data : bytes) (offset : Z)
  : outcome bytes :=
  let offset_block := offset / BLOCKSIZE in
  let reminder_len := offset mod BLOCKSIZE in
  (* i = 0; while (i < offset_block) *)
  obind (append_blocks (Z.to_nat offset_block) data_blocks 0 [])
    (fun data_str =>
  let i := Z.max 0 offset_block in
  obind (blk data_blocks offset_block) (fun b =>
  if len b <? reminder_len then
    Ok (data_str ++ b ++ data)
  else
    let data_str := data_str ++ slice_to b reminder_len ++ data in
    let data_str := data_str ++ slice_from b reminder_len in
    (* while (i < len(data_blocks)) *)
    append_blocks (Z.to_nat (len data_blocks - i)) data_blocks i data_str)).

(** [i = offset_block + 1; while (i < len(d)): del d[i]; i = i + 1]:
    [len(d)] is read again at every turn.  Each turn removes one block,
    so [List.length d] turns are enough. *)
Fixpoint delete_rest (fuel : nat) (d : list bytes) (i : Z) : list bytes :=
  match fuel with
  | O => d
  | S fuel' =>
      if i <? len d then delete_rest fuel' (del d i) (i + 1) else d
  end.

(** The body of [truncate] once [d] is at hand: the blocks it assigns
    ([None] when it assigns nothing) and the value of [length] it stores
    as [st_size]. *)
Definition truncate_blocks (d : list bytes) (length : Z)
  : outcome (option (list bytes) * Z) :=
  (* i = 0; while (i < len(d) - 1): data_len = data_len + BLOCKSIZE *)
  let i := Z.max 0 (len d - 1) in
  let data_len := i * BLOCKSIZE in
  obind (blk d i) (fun last =>
  let data_len := data_len + len last in
  if length <? data_len then Ok (None, 0)
  else
    let offset_block := length / BLOCKSIZE in
    let reminder_len := length mod BLOCKSIZE in
    obind (blk d offset_block) (fun b =>
    let d := set_index d offset_block (slice_to b reminder_len) in
    Ok (Some (delete_rest (List.length d) d (offset_block + 1)), length))).

(** A [str] takes no item assignment: [d[offset_block] = ...] on one is
    a [TypeError]. *)
Definition truncate (path : string) (length : Z) : M unit :=
  d <- traverse_data factory path ;;
  v <- dload d ;;
  l <- blocks_of v ;;
  '(assigned, length') <- lift (truncate_blocks l length) ;;
  (match assigned, v with
   | None, _ => ret tt
   | Some l', VList _ => dstore d (fun _ => VList l')
   | Some _, _ => raise TypeError
   end) ;;
  p <- traverse path ;;
  store p (set_size length').

(** [len(d[d1])]: the number of blocks, characters or keys. *)
Definition dlen (v : dval) : Z :=
  match v with
  | VList l => len l
  | VStr s => len s
  | VDict m => len m
  end.

Definition write (path : string) (data : bytes) (offset : Z) : M Z :=
  p <- traverse path ;;
  '(d, d1) <- traverseparent_data factory path ;;
  v <- getitem factory d d1 ;;
  if dlen v =? 0 then
    (* write into new file *)
    match v with
    | VList l =>
        setitem d d1 (VList (rechunk data (len data / BLOCKSIZE) l)) ;;
        store p (set_size (len data)) ;;
        ret (len data)
    | _ => raise AttributeError   (* no [append] on a [str] or a [dict] *)
    end
  else
    data_blocks <- blocks_of v ;;
    data_str <- lift (splice data_blocks data offset) ;;
    let newdata_block_num := len data_str / BLOCKSIZE + 1 in
    setitem d d1 (VList (rechunk data_str (newdata_block_num - 1) [])) ;;
    store p (set_size (len data_str)) ;;
    ret (len data).

Definition mkdir := mkdir factory.
Definition rename := rename factory.
Definition symlink := symlink factory.
Definition readlink := readlink factory.

End HBFS.

(** * Observations and sample states

    The sample states hold a file ["/f"] with the bytes of [abcdef], one
    per engine, and two directories ["/a"] and ["/b"].  The observations
    are the content stored for a path, the node at a path and the size as
    [getattr] reports it. *)

Definition text (s : string) : bytes := list_byte_of_string s.

Definition outcome_of {A : Type} (r : outcome A * state) : outcome A := fst r.
Definition state_of {A : Type} (r : outcome A * state) : state := snd r.

Definition size_of (path : string) (s : state) : outcome (option Z) :=
  match getattr path s with
  | (Ok m, _) => Ok (st_size m)
  | (Raise e, _) => Raise e
  end.

Definition flat_abcdef : state :=
  state_of ((create "/f" 420 1 1 1 ;; HFS.write "/f" (text "abcdef") 0)
              (init 0)).

Definition block_abcdef : state :=
  state_of ((create "/f" 420 1 1 1 ;; HBFS.write "/f" (text "abcdef") 0)
              (init 0)).

(** The node of ["/f"] in both sample states. *)
Definition node_abcdef : node :=
  Node (mkMeta 33188 1 (Some 6) (Some 1) (Some 1) (Some 1) None None None)
    None.

(** The mode bits [chmod] computes: the old bits under the mask
    [0o770000], or-ed with the new mode. *)
Definition chmod_bits (old mode : Z) : Z := Z.lor (Z.land old 258048) mode.

(** A directory ["/d"] that holds a file ["/d/f"]. *)
Definition dir_with_file : state :=
  state_of ((HBFS.mkdir "/d" 493 1 1 1 ;; create "/d/f" 420 1 1 1) (init 0)).

(** The node [mkdir] makes with mode [0o755] at clock reading 1. *)
Definition dir_node : node :=
  Node (mkMeta 16877 2 (Some 0) (Some 1) (Some 1) (Some 1) None None None)
    (Some []).

(** A file ["/a"] that has been created and not written to. *)
Definition created_a : state :=
  state_of (create "/a" 420 1 1 1 (init 0)).

(** The calls that touch the name space only, and how a call ends: with
    the exception it raised, if any, and the state it left. *)
Inductive ns_call : Type :=
| Chmod (path : string) (mode : Z)
| Chown (path : string) (uid gid : Z)
| Create (path : string) (mode t1 t2 t3 : Z)
| Getattr (path : string)
| Getxattr (path name : string)
| Listxattr (path : string)
| Removexattr (path name : string)
| Setxattr (path name : string) (value : bytes)
| Readdir (path : string)
| Rmdir (path : string)
| Unlink (path : string)
| Utimens (path : string) (atime mtime : Z)
| Open.

Definition ending {A : Type} (r : outcome A * state) : option exn * state :=
  match r with
  | (Ok _, s) => (None, s)
  | (Raise e, s) => (Some e, s)
  end.

Definition run_ns (order : key_order) (c : ns_call) (s : state)
  : option exn * state :=
  match c with
  | Chmod path mode => ending (chmod path mode s)
  | Chown path uid gid => ending (chown path uid gid s)
  | Create path mode t1 t2 t3 => ending (create path mode t1 t2 t3 s)
  | Getattr path => ending (getattr path s)
  | Getxattr path name => ending (getxattr path name s)
  | Listxattr path => ending (listxattr order path s)
  | Removexattr path name => ending (removexattr path name s)
  | Setxattr path name value => ending (setxattr path name value s)
  | Readdir path => ending (readdir order path s)
  | Rmdir path => ending (rmdir path s)
  | Unlink path => ending (unlink path s)
  | Utimens path atime mtime => ending (utimens path atime mtime s)
  | Open => ending (open s)
  end.

(** [d[k]] as a [defaultdict] with the given factory answers it. *)
Definition stored (factory : dval) (m : dict dval) (k : string) : dval :=
  match get m k with
  | Some v => v
  | None => factory
  end.

(** The blocks [write] of the block engine lays out for a content: full
    blocks followed by a last block shorter than [BLOCKSIZE]. *)
Definition layout (content : bytes) : list bytes :=
  HBFS.rechunk content (len content / HBFS.BLOCKSIZE) [].

(** The node [create] makes. *)
Definition file_node (mode t1 t2 t3 : Z) : node :=
  Node (mkMeta (Z.lor S_IFREG mode) 1 (Some 0) (Some t1) (Some t2) (Some t3)
          None None None) None.

(** The node [mkdir] makes. *)
Definition new_dir_node (mode t1 t2 t3 : Z) : node :=
  Node (mkMeta (Z.lor S_IFDIR mode) 2 (Some 0) (Some t1) (Some t2) (Some t3)
          None None None) (Some []).

(** The node [symlink] makes. *)
Definition link_node (source : bytes) : node :=
  Node (mkMeta (Z.lor S_IFLNK 511) 1 (Some (len source)) None None None
          None None None) None.

(** The logical content of a stored value: the string itself, or the
    concatenation of the blocks. *)
Definition logical (v : dval) : option bytes :=
  match v with
  | VStr s => Some s
  | VList l => Some (List.concat l)
  | VDict _ => None
  end.

(** The logical content stored for [path], read without inserting. *)
Definition content_at (path : string) (s : state) : option bytes :=
  match dlook (fs_data s) (split path) with
  | Some v => logical v
  | None => None
  end.

(** The node of the name space at [path]. *)
Definition node_at (path : string) (s : state) : option node :=
  walk (fs_files s) (split path).

(** The test [rename] uses for a directory. *)
Definition is_dir (n : node) : bool :=
  Z.land (st_mode (node_meta n)) 258048 =? S_IFDIR.

(** The number of direct children that are directories. *)
Definition subdirs (n : node) : Z :=
  match files n with
  | Some kids => len (filter (fun kv => is_dir (snd kv)) kids)
  | None => 0
  end.

Definition two_dirs : state :=
  state_of ((HBFS.mkdir "/a" 493 1 1 1 ;; HBFS.mkdir "/b" 493 1 1 1)
              (init 0)).

(** * Properties *)

(** ** C1: [truncate] *)

(** C1 (the code departs from it): truncating the six-byte file ["/f"] to
    length 2 should leave the two bytes [ab] and report size 2.  The flat
    engine leaves all six bytes in place (and reports 2); the block engine
    leaves all six bytes in place and reports size 0. *)
Theorem C1_truncate_shrink_runs :
  outcome_of (HFS.truncate "/f" 2 flat_abcdef) = Ok tt
  /\ content_at "/f" (state_of (HFS.truncate "/f" 2 flat_abcdef))
       = Some (text "abcdef")
  /\ size_of "/f" (state_of (HFS.truncate "/f" 2 flat_abcdef)) = Ok (Some 2)
  /\ outcome_of (HBFS.truncate "/f" 2 block_abcdef) = Ok tt
  /\ content_at "/f" (state_of (HBFS.truncate "/f" 2 block_abcdef))
       = Some (text "abcdef")
  /\ size_of "/f" (state_of (HBFS.truncate "/f" 2 block_abcdef))
       = Ok (Some 0)
  /\ slice_to (text "abcdef") 2 = text "ab".
Proof. repeat split; vm_compute; reflexivity. Qed.

(** ** C3: [read] *)

(** C3 (the code departs from it): on the six-byte file ["/f"], reading
    600 bytes at offset 0 should return the six bytes and reading at
    offset 600 should return the empty string, as the flat engine does.
    The block engine raises [IndexError] in both runs: the test
    [offset_block + 1 > len(d)] of the two-block case lets [d[1]] be read
    from a one-block list, and the one-block case reads [d[offset_block]]
    without a test. *)
Theorem C3_block_read_raises :
  outcome_of (HBFS.read "/f" 600 0 block_abcdef) = Raise IndexError
  /\ outcome_of (HBFS.read "/f" 10 600 block_abcdef) = Raise IndexError
  /\ outcome_of (HFS.read "/f" 600 0 flat_abcdef) = Ok (text "abcdef")
  /\ outcome_of (HFS.read "/f" 10 600 flat_abcdef) = Ok []
  /\ content_at "/f" block_abcdef = Some (text "abcdef").
Proof. repeat split; vm_compute; reflexivity. Qed.

(** ** C4: the reported size and the stored content *)

(** C4 (the code departs from it): after [create], [write] of six bytes and
    [truncate] to 2 the stored content still has six bytes, while the
    reported size is 2 in the flat engine and 0 in the block engine. *)
Theorem C4_size_differs_after_truncate :
  option_map len
    (content_at "/f" (state_of (HFS.truncate "/f" 2 flat_abcdef))) = Some 6
  /\ size_of "/f" (state_of (HFS.truncate "/f" 2 flat_abcdef)) = Ok (Some 2)
  /\ option_map len
       (content_at "/f" (state_of (HBFS.truncate "/f" 2 block_abcdef)))
     = Some 6
  /\ size_of "/f" (state_of (HBFS.truncate "/f" 2 block_abcdef))
     = Ok (Some 0).
Proof. repeat split; vm_compute; reflexivity. Qed.

(** ** C6: a path that does not resolve *)

(** C6 (the code departs from it): on the fresh file system, where
    ["/missing"] names nothing, [getattr] raises [FuseOSError(ENOENT)];
    [chmod], [chown], [rmdir], [unlink] and [utimens] end with the
    [KeyError] of the dictionary lookup, which they do not catch, and
    [read] of the flat engine returns the empty string. *)
Theorem C6_missing_path_raises_KeyError :
  outcome_of (getattr "/missing" (init 0)) = Raise (FuseOSError ENOENT)
  /\ outcome_of (chmod "/missing" 420 (init 0)) = Raise KeyError
  /\ outcome_of (chown "/missing" 0 0 (init 0)) = Raise KeyError
  /\ outcome_of (rmdir "/missing" (init 0)) = Raise KeyError
  /\ outcome_of (unlink "/missing" (init 0)) = Raise KeyError
  /\ outcome_of (utimens "/missing" 0 0 (init 0)) = Raise KeyError
  /\ outcome_of (HFS.read "/missing" 10 0 (init 0)) = Ok [].
Proof. repeat split; vm_compute; reflexivity. Qed.

(** ** C7: link counts *)

(** C7 (the code departs from it): with directories ["/a"] and ["/b"] the
    root has link count 4 = 2 + 2.  [rename("/a", "/b")] succeeds and
    replaces the entry ["b"]: the root is left with one child directory
    and still has link count 4. *)
Theorem C7_rename_over_directory_keeps_count :
  option_map (fun n => (st_nlink (node_meta n), subdirs n))
    (node_at "/" two_dirs) = Some (4, 2)
  /\ outcome_of (HBFS.rename "/a" "/b" two_dirs) = Ok tt
  /\ option_map (fun n => (st_nlink (node_meta n), subdirs n))
       (node_at "/" (state_of (HBFS.rename "/a" "/b" two_dirs)))
     = Some (4, 1)
  /\ option_map (fun n => (st_nlink (node_meta n), subdirs n))
       (node_at "/" (state_of (HFS.rename "/a" "/b" two_dirs)))
     = Some (4, 1).
Proof. repeat split; vm_compute; reflexivity. Qed.

(** ** Dictionaries and pointers *)

Section DictFacts.

Context {V : Type}.
Implicit Types (d : dict V) (k : string) (v : V).

Lemma get_set_same d k v : get (set d k v) k = Some v.
Proof.
  induction d as [|[k' v'] d IH]; simpl.
  - now rewrite String.eqb_refl.
  - destruct (String.eqb k k') eqn:E; simpl; rewrite E; auto.
Qed.

Lemma get_set_other d k k' v : k <> k' -> get (set d k v) k' = get d k'.
Proof.
  intros Hne. induction d as [|[k0 v0] d IH]; simpl.
  - destruct (String.eqb k' k) eqn:E; auto.
    apply String.eqb_eq in E. congruence.
  - destruct (String.eqb k k0) eqn:E; simpl.
    + apply String.eqb_eq in E. subst k0.
      destruct (String.eqb k' k) eqn:E'; auto.
      apply String.eqb_eq in E'. congruence.
    + now rewrite IH.
Qed.

Lemma set_get_id d k v : get d k = Some v -> set d k v = d.
Proof.
  induction d as [|[k' v'] d IH]; simpl; [discriminate|].
  destruct (String.eqb k k') eqn:E; intros H.
  - now inversion H.
  - now rewrite IH.
Qed.

Lemma set_set d k v v' : set (set d k v) k v' = set d k v'.
Proof.
  induction d as [|[k' v0] d IH]; simpl.
  - now rewrite String.eqb_refl.
  - destruct (String.eqb k k') eqn:E; simpl; rewrite E; congruence.
Qed.

Lemma get_remove_same d k : NoDup (map fst d) -> get (remove d k) k = None.
Proof.
  induction d as [|[k' v'] d IH]; simpl; auto.
  intros Hnd. inversion Hnd as [|? ? Hnotin Hnd']; subst.
  destruct (String.eqb k k') eqn:E; simpl.
  - apply String.eqb_eq in E. subst k'.
    clear - Hnotin. induction d as [|[k0 v0] d IH]; simpl; auto.
    destruct (String.eqb k k0) eqn:E.
    + apply String.eqb_eq in E. subst. simpl in Hnotin. tauto.
    + apply IH. simpl in Hnotin. tauto.
  - rewrite E. auto.
Qed.

Lemma get_remove_other d k k' : k <> k' -> get (remove d k) k' = get d k'.
Proof.
  intros Hne. induction d as [|[k0 v0] d IH]; simpl; auto.
  destruct (String.eqb k k0) eqn:E; simpl.
  - apply String.eqb_eq in E. subst k0.
    destruct (String.eqb k' k) eqn:E'; auto.
    apply String.eqb_eq in E'. congruence.
  - now rewrite IH.
Qed.

End DictFacts.

Lemma files_set_files kids n : files (set_files kids n) = Some kids.
Proof. now destruct n. Qed.

Lemma meta_set_files kids n : node_meta (set_files kids n) = node_meta n.
Proof. now destruct n. Qed.

(** Reading through a pointer after a mutation through the same pointer. *)
Lemma walk_update f comps : forall p n,
  walk p comps = Some n -> walk (update f p comps) comps = Some (f n).
Proof.
  induction comps as [|i rest IH]; simpl; intros p n H.
  - congruence.
  - destruct (nonempty i); [|auto].
    destruct (files p) as [kids|] eqn:Ef; [|discriminate].
    destruct (get kids i) as [c|] eqn:Eg; [|discriminate].
    rewrite files_set_files, get_set_same. auto.
Qed.

(** Two mutations through the same pointer. *)
Lemma update_update f g comps : forall p n,
  walk p comps = Some n ->
  update g (update f p comps) comps = update (fun x => g (f x)) p comps.
Proof.
  induction comps as [|i rest IH]; simpl; intros p n H.
  - reflexivity.
  - destruct (nonempty i); [|eauto].
    destruct (files p) as [kids|] eqn:Ef; [|discriminate].
    destruct (get kids i) as [c|] eqn:Eg; [|discriminate].
    rewrite files_set_files, get_set_same.
    rewrite (IH _ _ H), set_set. now destruct p.
Qed.

(** A mutation through a pointer installs the mutated node. *)
Lemma update_at f comps : forall p n,
  walk p comps = Some n ->
  update f p comps = update (fun _ => f n) p comps.
Proof.
  induction comps as [|i rest IH]; simpl; intros p n H.
  - congruence.
  - destruct (nonempty i); [|eauto].
    destruct (files p) as [kids|] eqn:Ef; [|discriminate].
    destruct (get kids i) as [c|] eqn:Eg; [|discriminate].
    now rewrite (IH _ _ H).
Qed.

(** ** C10: [chmod] *)

Lemma perm_bits_only mode :
  0 <= mode < 4096 -> Z.land mode 4095 = mode.
Proof.
  intros H. change 4095 with (Z.ones 12).
  rewrite Z.land_ones by lia. apply Z.mod_small. lia.
Qed.

(** The file-type bits ([0o170000]) of the result are those of the old
    mode. *)
Lemma chmod_bits_kind old mode :
  0 <= mode < 4096 ->
  Z.land (chmod_bits old mode) 61440 = Z.land old 61440.
Proof.
  intros H. unfold chmod_bits.
  rewrite Z.land_lor_distr_l, <- Z.land_assoc.
  change (Z.land 258048 61440) with 61440.
  rewrite <- (perm_bits_only H), <- Z.land_assoc.
  change (Z.land 4095 61440) with 0.
  now rewrite Z.land_0_r, Z.lor_0_r.
Qed.

(** The permission bits ([0o7777]) of the result are the new mode. *)
Lemma chmod_bits_perm old mode :
  0 <= mode < 4096 ->
  Z.land (chmod_bits old mode) 4095 = mode.
Proof.
  intros H. unfold chmod_bits.
  rewrite Z.land_lor_distr_l, <- Z.land_assoc.
  change (Z.land 258048 4095) with 0.
  now rewrite Z.land_0_r, Z.lor_0_l, perm_bits_only.
Qed.

(** C10: when [path] resolves to a node [n] and [mode] has no bit at or
    above [0o10000], [chmod path mode] returns 0; afterwards [path]
    resolves to [n] with [st_mode] replaced, whose file-type bits are
    those of [n] and whose permission bits are [mode]; every other field
    of the node and its children are the same, and neither the content
    store nor the descriptor counter has changed. *)
Theorem C10_chmod_replaces_permission_bits :
  forall (path : string) (mode : Z) (s : state) (n : node),
    node_at path s = Some n ->
    0 <= mode < 4096 ->
    exists s' n',
      chmod path mode s = (Ok 0, s')
      /\ node_at path s' = Some n'
      /\ st_mode (node_meta n') = chmod_bits (st_mode (node_meta n)) mode
      /\ Z.land (st_mode (node_meta n')) 61440
         = Z.land (st_mode (node_meta n)) 61440
      /\ Z.land (st_mode (node_meta n')) 4095 = mode
      /\ is_dir n' = is_dir n
      /\ st_nlink (node_meta n') = st_nlink (node_meta n)
      /\ st_size (node_meta n') = st_size (node_meta n)
      /\ st_ctime (node_meta n') = st_ctime (node_meta n)
      /\ st_mtime (node_meta n') = st_mtime (node_meta n)
      /\ st_atime (node_meta n') = st_atime (node_meta n)
      /\ st_uid (node_meta n') = st_uid (node_meta n)
      /\ st_gid (node_meta n') = st_gid (node_meta n)
      /\ attrs (node_meta n') = attrs (node_meta n)
      /\ files n' = files n
      /\ fs_data s' = fs_data s
      /\ fs_fd s' = fs_fd s.
Proof.
  intros path mode s n Hn Hmode. unfold node_at in Hn.
  eexists. exists (set_mode (chmod_bits (st_mode (node_meta n)) mode) n).
  split.
  { unfold chmod, bind, traverse, store, ret. rewrite Hn. simpl.
    reflexivity. }
  unfold node_at. simpl.
  rewrite (update_update _ _ _ _ Hn), (walk_update _ _ _ Hn).
  destruct n as [m f]; simpl.
  repeat split; auto using chmod_bits_kind, chmod_bits_perm.
  unfold is_dir; simpl. unfold chmod_bits.
  rewrite Z.land_lor_distr_l, <- Z.land_assoc.
  change (Z.land 258048 258048) with 258048.
  rewrite <- (perm_bits_only Hmode), <- Z.land_assoc.
  change (Z.land 4095 258048) with 0.
  now rewrite Z.land_0_r, Z.lor_0_r.
Qed.

Lemma C10_chmod_witness :
  node_at "/f" flat_abcdef = Some node_abcdef
  /\ 0 <= 384 < 4096
  /\ exists s' n',
      chmod "/f" 384 flat_abcdef = (Ok 0, s')
      /\ node_at "/f" s' = Some n'
      /\ st_mode (node_meta n') = 33152.
Proof.
  assert (Hn : node_at "/f" flat_abcdef = Some node_abcdef)
    by (vm_compute; reflexivity).
  assert (Hm : 0 <= 384 < 4096) by lia.
  split; [exact Hn|]. split; [exact Hm|].
  destruct (C10_chmod_replaces_permission_bits "/f" flat_abcdef Hn Hm)
    as (s' & n' & H1 & H2 & H3 & _).
  exists s', n'. repeat split; auto.
Defined.

(** ** C9: [rmdir] *)

(** C9: let [path] name a directory the way [rmdir] resolves it: the part
    of [path] before its last separator resolves to a node [p], and the
    part after it names a directory [c] among the children [kids] of [p]
    (so it is for every path that has a separator and a non-empty last
    component and resolves to a directory, see
    [resolves_through_parent]).  Then [rmdir path] raises [ENOTEMPTY] exactly
    when [c] has a child, and then changes nothing; otherwise it succeeds,
    and afterwards the parent has the children [remove kids tar] and a link
    count smaller by 1, every other field of the parent is the same, the
    tree differs from the old one at the parent only, and neither the
    content store nor the descriptor counter has changed. *)
Theorem C9_rmdir_empty_gate :
  forall (path : string) (s : state) (p c : node) (kids ckids : dict node),
    walk (fs_files s) (split (parent_part path)) = Some p ->
    files p = Some kids ->
    get kids (target_part path) = Some c ->
    files c = Some ckids ->
    (outcome_of (rmdir path s) = Raise (FuseOSError ENOTEMPTY)
       <-> ckids <> [])
    /\ (ckids <> [] -> state_of (rmdir path s) = s)
    /\ (ckids = [] ->
        exists s' p',
          rmdir path s = (Ok tt, s')
          /\ walk (fs_files s') (split (parent_part path)) = Some p'
          /\ files p' = Some (remove kids (target_part path))
          /\ st_nlink (node_meta p') = st_nlink (node_meta p) - 1
          /\ set_nlink (st_nlink (node_meta p)) p'
             = set_files (remove kids (target_part path)) p
          /\ fs_files s'
             = update (fun _ => p') (fs_files s) (split (parent_part path))
          /\ fs_data s' = fs_data s
          /\ fs_fd s' = fs_fd s).
Proof.
  intros path s p c kids ckids Hp Hk Hc Hck.
  assert (Hrun : rmdir path s
    = if 0 <? len ckids then (Raise (FuseOSError ENOTEMPTY), s)
      else (Ok tt,
            mkState
              (update (fun n => set_nlink (st_nlink (node_meta n) - 1) n)
                 (update (set_files (remove kids (target_part path)))
                    (fs_files s) (split (parent_part path)))
                 (split (parent_part path)))
              (fs_data s) (fs_fd s))).
  { unfold rmdir, bind, traverseparent, child, children, load, bind, ret.
    rewrite Hp. simpl. rewrite Hp, Hk. simpl. rewrite Hc, Hck.
    destruct (0 <? len ckids); [reflexivity|].
    unfold raise, store. simpl. rewrite Hp, Hk. reflexivity. }
  assert (Hlen : (0 <? len ckids) = true <-> ckids <> []).
  { unfold len. destruct ckids; simpl; split; intros H;
      try discriminate; try congruence.
    apply Z.ltb_lt. lia. }
  rewrite Hrun. split; [|split].
  - destruct (0 <? len ckids) eqn:E; simpl.
    + split; intros; auto. now apply Hlen.
    + split; [discriminate|]. intros H. apply Hlen in H. discriminate.
  - intros H. apply Hlen in H. now rewrite H.
  - intros ->. simpl.
    eexists. eexists. split; [reflexivity|].
    simpl. rewrite (update_update _ _ _ _ Hp), (walk_update _ _ _ Hp).
    split; [reflexivity|].
    rewrite (update_at _ _ _ Hp).
    destruct p as [m f]; simpl. repeat split.
    now destruct m.
Qed.

Lemma C9_rmdir_witness :
  outcome_of (rmdir "/a" two_dirs) = Ok tt
  /\ option_map (fun n => (st_nlink (node_meta n), option_map (map fst) (files n)))
       (node_at "/" (state_of (rmdir "/a" two_dirs)))
     = Some (3, Some ["b"%string]).
Proof.
  destruct (@C9_rmdir_empty_gate "/a" two_dirs
              (Node (mkMeta 16877 4 None (Some 0) (Some 0) (Some 0)
                       None None None)
                 (Some [("a"%string, dir_node); ("b"%string, dir_node)]))
              dir_node
              [("a"%string, dir_node); ("b"%string, dir_node)] [])
    as (_ & _ & H); try (vm_compute; reflexivity).
  destruct (H eq_refl) as (s' & p' & Hrun & _).
  rewrite Hrun. split; [reflexivity|].
  clear H. vm_compute in Hrun. inversion Hrun. subst s'.
  vm_compute. reflexivity.
Defined.


(** ** C8: the state after a failure *)

(** C8 (the code departs from it): a failed operation should leave the
    state as it was.  In either engine, [rename] of a file that was
    created and never written moves the entry in the name space and then
    ends with the [KeyError] of [do.pop(do1)], the content store having no
    entry to move: the old name is gone and the new one is there.  In the
    block engine, [read] of a name the store does not have inserts the name
    before it ends with [IndexError]. *)
Lemma C8_failed_rename_has_moved_the_entry :
  outcome_of (HFS.rename "/a" "/b" created_a) = Raise KeyError
  /\ outcome_of (HBFS.rename "/a" "/b" created_a) = Raise KeyError
  /\ state_of (HFS.rename "/a" "/b" created_a) <> created_a
  /\ state_of (HBFS.rename "/a" "/b" created_a) <> created_a
  /\ outcome_of (HBFS.read "/a" 1 0 created_a) = Raise IndexError
  /\ state_of (HBFS.read "/a" 1 0 created_a) <> created_a.
Proof.
  repeat split; try (vm_compute; reflexivity);
    intros H; vm_compute in H; discriminate.
Qed.

(** Resolving a path in the name space returns the state it was given. *)
Lemma traverse_state path s : state_of (traverse path s) = s.
Proof. unfold traverse. now destruct (walk _ _). Qed.

Lemma traverseparent_state path s : state_of (traverseparent path s) = s.
Proof. unfold traverseparent. now destruct (walk _ _). Qed.

Lemma load_state p s : state_of (load p s) = s.
Proof. unfold load. now destruct (walk _ _). Qed.

(** Splits on every test the run of an operation goes through. *)
Ltac run_cases :=
  repeat match goal with
    | |- context [match walk ?r ?c with _ => _ end] =>
        destruct (walk r c) eqn:?; simpl
    | |- context [match files ?n with _ => _ end] =>
        destruct (files n) eqn:?; simpl
    | |- context [match get ?d ?k with _ => _ end] =>
        destruct (get d k) eqn:?; simpl
    | |- context [match attrs ?m with _ => _ end] =>
        destruct (attrs m) eqn:?; simpl
    | |- context [if ?b then _ else _] => destruct b eqn:?; simpl
    end.

(** X20: resolving a path in the name space changes nothing, and when
    one of the operations that touch the name space only ([chmod],
    [chown], [create], [getattr], the four extended-attribute operations,
    [readdir], [rmdir], [unlink], [utimens], [open]) ends with an
    exception, the state after the call is the state before it. *)
Theorem X20_namespace_failure_leaves_state :
  forall (order : key_order) (c : ns_call) (s s' : state) (e : exn),
    run_ns order c s = (Some e, s') ->
    s' = s
    /\ (forall path, state_of (traverse path s) = s)
    /\ (forall path, state_of (traverseparent path s) = s).
Proof.
  intros order c s s' e H.
  split; [|split; intros; auto using traverse_state, traverseparent_state].
  revert H.
  destruct c; simpl;
    unfold chmod, chown, create, getattr, getxattr, listxattr, removexattr,
      setxattr, readdir, rmdir, unlink, utimens, open, next_fd,
      catch_KeyError, child, children, bind, traverse, traverseparent,
      load, store, ret, raise, ending; simpl;
    run_cases; intros H; inversion H; reflexivity.
Qed.

Lemma X20_namespace_failure_witness :
  run_ns (fun l => l) (Rmdir "/d") dir_with_file
    = (Some (FuseOSError ENOTEMPTY), dir_with_file)
  /\ dir_with_file = dir_with_file.
Proof.
  assert (H : run_ns (fun l => l) (Rmdir "/d") dir_with_file
              = (Some (FuseOSError ENOTEMPTY), dir_with_file))
    by (vm_compute; reflexivity).
  split; [exact H|].
  exact (proj1 (@X20_namespace_failure_leaves_state _ _ _ _ _ H)).
Defined.

(** ** Slices *)

Section SliceFacts.

Context {A : Type}.
Implicit Types (l : list A) (a b c d : Z).

Lemma len_nonneg l : 0 <= len l.
Proof. unfold len. lia. Qed.

Lemma len_app l l' : len (l ++ l') = len l + len l'.
Proof. unfold len. rewrite length_app. lia. Qed.

Lemma firstn_enough (k k' : nat) l :
  (List.length l <= k)%nat -> (List.length l <= k')%nat ->
  firstn k l = firstn k' l.
Proof. intros. now rewrite !firstn_all2. Qed.

Lemma firstn_plus (n m : nat) l :
  firstn (n + m) l = firstn n l ++ firstn m (skipn n l).
Proof.
  revert l. induction n as [|n IH]; intros [|x l]; simpl; auto.
  - now rewrite firstn_nil.
  - now rewrite IH.
Qed.

(** Between bounds that are not negative, a slice is a [firstn] of a
    [skipn]. *)
Lemma slice_nat l a b :
  0 <= a -> 0 <= b ->
  slice l a b
  = firstn (Z.to_nat b - Z.to_nat a) (skipn (Z.to_nat a) l).
Proof.
  intros Ha Hb. unfold slice, clamp, len.
  destruct (Z.ltb_spec a 0); [lia|]. destruct (Z.ltb_spec b 0); [lia|].
  destruct (Z_le_gt_dec a (Z.of_nat (List.length l))) as [Hal|Hal].
  - rewrite (Z.min_l a) by lia.
    destruct (Z_le_gt_dec b (Z.of_nat (List.length l))) as [Hbl|Hbl].
    + rewrite (Z.min_l b) by lia. f_equal. lia.
    + rewrite (Z.min_r b) by lia.
      apply firstn_enough; rewrite length_skipn; lia.
  - rewrite (Z.min_r a) by lia.
    rewrite Nat2Z.id, skipn_all, (skipn_all2 (n := Z.to_nat a)) by lia.
    now rewrite !firstn_nil.
Qed.

Lemma slice_app l a b c :
  0 <= a <= b -> b <= c -> slice l a b ++ slice l b c = slice l a c.
Proof.
  intros Hab Hbc. rewrite !slice_nat by lia.
  replace (Z.to_nat c - Z.to_nat a)%nat
    with ((Z.to_nat b - Z.to_nat a) + (Z.to_nat c - Z.to_nat b))%nat by lia.
  rewrite firstn_plus, skipn_skipn. do 3 f_equal. lia.
Qed.

Lemma len_slice l a b :
  0 <= a <= b -> b <= len l -> len (slice l a b) = b - a.
Proof.
  intros Hab Hb. rewrite slice_nat by lia. unfold len in *.
  rewrite length_firstn, length_skipn. lia.
Qed.

Lemma len_slice_le l a b : 0 <= a -> 0 <= b -> len (slice l a b) <= b - a \/ b < a.
Proof.
  intros Ha Hb. rewrite slice_nat by lia. unfold len.
  rewrite length_firstn, length_skipn. lia.
Qed.

Lemma slice_slice l a b c d :
  0 <= a -> 0 <= c <= d -> a + d <= b ->
  slice (slice l a b) c d = slice l (a + c) (a + d).
Proof.
  intros Ha Hcd Hd. rewrite !slice_nat by lia.
  rewrite skipn_firstn_comm, firstn_firstn, skipn_skipn.
  f_equal; [|f_equal]; lia.
Qed.

Lemma slice_all l b : len l <= b -> slice l 0 b = l.
Proof.
  intros Hb. pose proof (len_nonneg l). rewrite slice_nat by lia.
  unfold len in *. simpl. apply firstn_all2. lia.
Qed.

Lemma slice_empty l a b : 0 <= a -> 0 <= b <= a -> slice l a b = [].
Proof.
  intros Ha Hb. rewrite slice_nat by lia.
  replace (Z.to_nat b - Z.to_nat a)%nat with O by lia. reflexivity.
Qed.

Lemma slice_beyond l a b : len l <= a -> 0 <= b -> slice l a b = [].
Proof.
  intros Ha Hb. pose proof (len_nonneg l). rewrite slice_nat by lia.
  unfold len in *. rewrite skipn_all2 by lia. apply firstn_nil.
Qed.

(** Clipping the upper bound at the length changes nothing. *)
Lemma slice_clip l a b :
  0 <= a -> len l <= b -> slice l a b = slice l a (len l).
Proof.
  intros Ha Hb. pose proof (len_nonneg l). rewrite !slice_nat by lia.
  unfold len in *. apply firstn_enough; rewrite length_skipn; lia.
Qed.

Lemma slice_app_l l l' a b :
  0 <= a -> 0 <= b <= len l -> slice (l ++ l') a b = slice l a b.
Proof.
  intros Ha Hb. rewrite !slice_nat by lia. unfold len in *.
  rewrite skipn_app, firstn_app, length_skipn.
  replace (Z.to_nat b - Z.to_nat a - (List.length l - Z.to_nat a))%nat
    with O by lia.
  simpl. apply app_nil_r.
Qed.

Lemma slice_app_r l l' a b :
  0 <= a -> 0 <= b ->
  slice (l ++ l') (len l + a) (len l + b) = slice l' a b.
Proof.
  intros Ha Hb. pose proof (len_nonneg l). rewrite !slice_nat by lia.
  unfold len in *. rewrite skipn_app.
  rewrite (skipn_all2 (n := Z.to_nat (Z.of_nat (List.length l) + a))) by lia.
  simpl. f_equal; [|f_equal]; lia.
Qed.

End SliceFacts.

(** ** Cutting a path at its last separator *)

Lemma slice_cons_0 {A : Type} (x : A) l b :
  0 <= b -> slice (x :: l) 0 (b + 1) = x :: slice l 0 b.
Proof.
  intros Hb. rewrite !slice_nat by lia.
  replace (Z.to_nat (b + 1) - Z.to_nat 0)%nat with (S (Z.to_nat b)) by lia.
  simpl. f_equal. f_equal. lia.
Qed.

Lemma slice_cons_S {A : Type} (x : A) l a b :
  0 <= a -> 0 <= b -> slice (x :: l) (a + 1) (b + 1) = slice l a b.
Proof.
  intros Ha Hb. rewrite !slice_nat by lia.
  replace (Z.to_nat (a + 1)) with (S (Z.to_nat a)) by lia.
  simpl. f_equal. lia.
Qed.

Lemma str_len_String c r : str_len (String c r) = str_len r + 1.
Proof. unfold str_len, len. simpl. lia. Qed.

Lemma str_len_nonneg s : 0 <= str_len s.
Proof. apply len_nonneg. Qed.

Lemma str_slice_all s : str_slice s 0 (str_len s) = s.
Proof.
  unfold str_slice, str_len. rewrite slice_all by lia.
  apply string_of_list_ascii_of_string.
Qed.

Lemma split_not_nil s : split s <> [].
Proof.
  destruct s as [|c r]; simpl; [discriminate|].
  destruct (Ascii.eqb c slash); [discriminate|].
  destruct (split r); discriminate.
Qed.

(** Without a separator there is one piece. *)
Lemma split_no_slash s : rfind s < 0 -> split s = [s].
Proof.
  induction s as [|c r IH]; simpl; auto.
  destruct (Z.leb_spec 0 (rfind r)); [lia|].
  destruct (Ascii.eqb c slash); [lia|].
  intros _. now rewrite IH by lia.
Qed.

Lemma rfind_lower s : -1 <= rfind s.
Proof.
  induction s as [|c r IH]; simpl; [lia|].
  destruct (Z.leb_spec 0 (rfind r)); [lia|].
  destruct (Ascii.eqb c slash); lia.
Qed.

(** A path with a separator splits into the pieces of its parent part
    followed by its target part. *)
Lemma split_parent path :
  0 <= rfind path ->
  split path = split (parent_part path) ++ [target_part path].
Proof.
  unfold parent_part, target_part.
  induction path as [|c r IH]; simpl; [lia|].
  rewrite str_len_String.
  destruct (Z.leb_spec 0 (rfind r)) as [Hr|Hr].
  - intros _. specialize (IH Hr).
    assert (Hp : str_slice (String c r) 0 (rfind r + 1)
                 = String c (str_slice r 0 (rfind r))).
    { unfold str_slice. simpl. now rewrite slice_cons_0 by lia. }
    assert (Ht : str_slice (String c r) (rfind r + 1 + 1) (str_len r + 1)
                 = str_slice r (rfind r + 1) (str_len r)).
    { unfold str_slice. simpl.
      rewrite slice_cons_S by (pose proof (str_len_nonneg r); lia).
      reflexivity. }
    rewrite Hp, Ht. simpl.
    destruct (Ascii.eqb c slash).
    + now rewrite IH at 1.
    + destruct (split r) as [|h t] eqn:Er;
        [now apply split_not_nil in Er|].
      destruct (split (str_slice r 0 (rfind r))) as [|h' t'] eqn:Ep;
        [now apply split_not_nil in Ep|].
      simpl in IH. inversion IH. reflexivity.
  - destruct (Ascii.eqb c slash) eqn:Ec; [|lia].
    intros _.
    assert (Hp : str_slice (String c r) 0 0 = EmptyString).
    { unfold str_slice. now rewrite slice_empty by lia. }
    assert (Ht : str_slice (String c r) (0 + 1) (str_len r + 1) = r).
    { unfold str_slice. cbn [list_ascii_of_string].
      rewrite slice_cons_S by (pose proof (str_len_nonneg r); lia).
      apply str_slice_all. }
    rewrite Hp, Ht. simpl. now rewrite split_no_slash by lia.
Qed.

(** ** Pointers into the content store *)

(** Where a lookup without insertion succeeds, the inserting walk reaches
    the same object and leaves the store as it was. *)
Lemma dwalk_dlook factory comps : forall p v,
  dlook p comps = Some v -> dwalk factory p comps = (Ok v, p).
Proof.
  induction comps as [|i rest IH]; simpl; intros p v H.
  - congruence.
  - destruct (nonempty i); [|auto].
    destruct p as [s|l|d]; try discriminate.
    destruct (get d i) as [c|] eqn:Eg; [|discriminate].
    rewrite (IH _ _ H). now rewrite set_get_id.
Qed.

Lemma dlook_dupdate f comps : forall p v,
  dlook p comps = Some v -> dlook (dupdate f p comps) comps = Some (f v).
Proof.
  induction comps as [|i rest IH]; simpl; intros p v H.
  - congruence.
  - destruct (nonempty i); [|auto].
    destruct p as [s|l|d]; try discriminate.
    destruct (get d i) as [c|] eqn:Eg; [|discriminate].
    simpl. rewrite get_set_same. auto.
Qed.

Lemma dupdate_dupdate f g comps : forall p v,
  dlook p comps = Some v ->
  dupdate g (dupdate f p comps) comps = dupdate (fun x => g (f x)) p comps.
Proof.
  induction comps as [|i rest IH]; simpl; intros p v H.
  - reflexivity.
  - destruct (nonempty i); [|eauto].
    destruct p as [s|l|d]; try discriminate.
    destruct (get d i) as [c|] eqn:Eg; [|discriminate].
    simpl. rewrite get_set_same, (IH _ _ H), set_set. reflexivity.
Qed.

Lemma dlook_app c1 : forall c2 p,
  dlook p (c1 ++ c2)
  = match dlook p c1 with
    | Some v => dlook v c2
    | None => None
    end.
Proof.
  induction c1 as [|i rest IH]; simpl; intros c2 p; auto.
  destruct (nonempty i); [|auto].
  destruct p as [s|l|d]; auto.
  destruct (get d i); auto.
Qed.

Lemma walk_app c1 : forall c2 p,
  walk p (c1 ++ c2)
  = match walk p c1 with
    | Some n => walk n c2
    | None => None
    end.
Proof.
  induction c1 as [|i rest IH]; simpl; intros c2 p; auto.
  destruct (nonempty i); [|auto].
  destruct (files p); auto.
  destruct (get d i); auto.
Qed.

(** The value a [defaultdict] gives for [d[k]]. *)
Lemma dlook_child (m : dict dval) (k : string) :
  nonempty k = true -> dlook (VDict m) [k] = get m k.
Proof. intros H. simpl. rewrite H. now destruct (get m k). Qed.

(** ** [write] in the flat engine *)

(** The run of [write] on a file whose parent directory is in the content
    store: the string kept for the file becomes [buffer[:offset] + data]. *)
Lemma HFS_write_run path data offset s n m buffer :
  node_at path s = Some n ->
  0 <= rfind path ->
  nonempty (target_part path) = true ->
  dlook (fs_data s) (split (parent_part path)) = Some (VDict m) ->
  stored HFS.factory m (target_part path) = VStr buffer ->
  exists s',
    HFS.write path data offset s = (Ok (len data), s')
    /\ dlook (fs_data s') (split path)
       = Some (VStr (slice_to buffer offset ++ data))
    /\ node_at path s'
       = Some (set_size (len (slice_to buffer offset ++ data)) n)
    /\ fs_fd s' = fs_fd s.
Proof.
  intros Hn Hr Ht Hd Hb. unfold node_at in Hn.
  set (new := slice_to buffer offset ++ data).
  exists (mkState (update (set_size (len new)) (fs_files s) (split path))
            (dupdate (fun _ => VDict (set m (target_part path) (VStr new)))
               (fs_data s) (split (parent_part path)))
            (fs_fd s)).
  split; [|split; [|split]].
  - unfold HFS.write, bind, traverse. rewrite Hn.
    unfold traverseparent_data. rewrite (dwalk_dlook _ _ _ Hd). simpl.
    unfold stored in Hb. unfold getitem, setitem, bind, dload, dstore.
    simpl. rewrite Hd.
    destruct (get m (target_part path)) as [v|] eqn:Eg.
    + subst v. simpl. rewrite Hd. simpl.
      rewrite (dlook_dupdate _ _ _ Hd). rewrite get_set_same. simpl.
      reflexivity.
    + unfold HFS.factory in *. inversion Hb; subst buffer. simpl.
      rewrite (dlook_dupdate _ _ _ Hd). simpl.
      rewrite (dupdate_dupdate _ _ _ _ Hd), set_set.
      rewrite (dlook_dupdate _ _ _ Hd). rewrite get_set_same. simpl.
      reflexivity.
  - simpl. rewrite (split_parent _ Hr), dlook_app.
    rewrite (dlook_dupdate _ _ _ Hd), (dlook_child _ _ Ht), get_set_same.
    reflexivity.
  - unfold node_at. simpl. now apply walk_update.
  - reflexivity.
Qed.

(** The run of [read] on a stored string. *)
Lemma HFS_read_run path size offset s buffer :
  dlook (fs_data s) (split path) = Some (VStr buffer) ->
  HFS.read path size offset s = (Ok (slice buffer offset (offset + size)), s).
Proof.
  intros Hd. unfold HFS.read, bind, traverse_data.
  rewrite (dwalk_dlook _ _ _ Hd). unfold dload. simpl. rewrite Hd. simpl.
  now destruct s.
Qed.

(** ** The layout of blocks *)

Lemma append_slices_app k : forall data i d,
  HBFS.append_slices k data i d = d ++ HBFS.append_slices k data i [].
Proof.
  induction k as [|k IH]; simpl; intros data i d.
  - now rewrite app_nil_r.
  - rewrite IH, (IH _ _ [_]). now rewrite <- app_assoc.
Qed.

Lemma append_slices_S k data i :
  HBFS.append_slices (S k) data i []
  = slice data (i * 512) ((i + 1) * 512)
      :: HBFS.append_slices k data (i + 1) [].
Proof. simpl. now rewrite append_slices_app. Qed.

Lemma length_append_slices k : forall data i,
  List.length (HBFS.append_slices k data i []) = k.
Proof.
  induction k as [|k IH]; intros data i; [reflexivity|].
  rewrite append_slices_S. simpl. now rewrite IH.
Qed.

Lemma nth_append_slices k : forall data i (j : nat),
  (j < k)%nat ->
  nth_error (HBFS.append_slices k data i []) j
  = Some (slice data ((i + Z.of_nat j) * 512) ((i + Z.of_nat j + 1) * 512)).
Proof.
  induction k as [|k IH]; intros data i j Hj; [lia|].
  rewrite append_slices_S. destruct j as [|j]; simpl.
  - now rewrite Z.add_0_r.
  - rewrite IH by lia. do 2 f_equal; lia.
Qed.

Lemma concat_append_slices k : forall data i,
  0 <= i ->
  List.concat (HBFS.append_slices k data i [])
  = slice data (i * 512) ((i + Z.of_nat k) * 512).
Proof.
  induction k as [|k IH]; intros data i Hi.
  - simpl. now rewrite slice_empty by lia.
  - rewrite append_slices_S. simpl. rewrite IH by lia.
    rewrite slice_app by lia. f_equal. lia.
Qed.

Lemma len_layout content : len (layout content) = len content / 512 + 1.
Proof.
  pose proof (len_nonneg content).
  assert (0 <= len content / 512) by (apply Z.div_pos; lia).
  unfold layout, HBFS.rechunk, HBFS.BLOCKSIZE.
  unfold len in *. rewrite length_app, length_append_slices.
  cbn [List.length]. lia.
Qed.

(** Block [i] of the layout is the slice of the content at [i * 512]. *)
Lemma blk_layout content i :
  0 <= i <= len content / 512 ->
  HBFS.blk (layout content) i
  = Ok (slice content (i * 512) ((i + 1) * 512)).
Proof.
  intros Hi. pose proof (len_nonneg content) as Hc.
  pose proof (len_layout content) as Hl.
  unfold HBFS.blk, index, norm. rewrite Hl.
  destruct (Z.ltb_spec i 0); [lia|].
  destruct (Z.leb_spec 0 i); [|lia].
  destruct (Z.ltb_spec i (len content / 512 + 1)); [|lia]. simpl.
  unfold layout, HBFS.rechunk, HBFS.BLOCKSIZE.
  destruct (Z.eq_dec i (len content / 512)) as [->|Hne].
  - rewrite nth_error_app2; rewrite length_append_slices; [|lia].
    replace (Z.to_nat (len content / 512) - Z.to_nat (len content / 512))%nat
      with O by lia.
    simpl. unfold slice_from. rewrite Z.max_r by lia.
    f_equal. symmetry. apply slice_clip; [lia|].
    pose proof (Z.mod_pos_bound (len content) 512 ltac:(lia)).
    pose proof (Z.div_mod (len content) 512 ltac:(lia)). lia.
  - rewrite nth_error_app1 by (rewrite length_append_slices; lia).
    rewrite nth_append_slices by lia. do 2 f_equal; lia.
Qed.

Lemma concat_layout content : List.concat (layout content) = content.
Proof.
  pose proof (len_nonneg content) as Hc.
  assert (0 <= len content / 512) by (apply Z.div_pos; lia).
  pose proof (Z.mod_pos_bound (len content) 512 ltac:(lia)).
  pose proof (Z.div_mod (len content) 512 ltac:(lia)).
  unfold layout, HBFS.rechunk, HBFS.BLOCKSIZE.
  rewrite concat_app, concat_append_slices by lia. simpl.
  rewrite app_nil_r. unfold slice_from.
  rewrite Z.max_r, Z2Nat.id by lia. simpl.
  rewrite slice_app by lia. apply slice_all. lia.
Qed.

Lemma skipn_nth_error {A : Type} (l : list A) : forall (n : nat) (x : A),
  nth_error l n = Some x -> skipn n l = x :: skipn (S n) l.
Proof.
  induction l as [|y l IH]; intros [|n] x H; simpl in *; try discriminate.
  - now inversion H.
  - now apply IH.
Qed.

Lemma blk_nth d i b :
  HBFS.blk d i = Ok b -> 0 <= i -> nth_error d (Z.to_nat i) = Some b.
Proof.
  unfold HBFS.blk, index, norm. intros H Hi.
  destruct (Z.ltb_spec i 0); [lia|].
  destruct ((0 <=? i) && (i <? len d)); [|discriminate].
  destruct (nth_error d (Z.to_nat i)); now inversion H.
Qed.



(** The same loop on a layout appends a slice of the content. *)
Lemma append_blocks_layout k : forall content j acc,
  0 <= j -> j + Z.of_nat k <= len content / 512 + 1 ->
  HBFS.append_blocks k (layout content) j acc
  = Ok (acc ++ slice content (j * 512) ((j + Z.of_nat k) * 512)).
Proof.
  induction k as [|k IH]; intros content j acc Hj Hk; simpl.
  - now rewrite slice_empty, app_nil_r by lia.
  - rewrite blk_layout by lia. simpl. rewrite IH by lia.
    rewrite <- app_assoc, slice_app by lia. do 3 f_equal. lia.
Qed.

Lemma slice_glue {A : Type} (l : list A) a b b' c :
  b = b' -> 0 <= a <= b -> b <= c ->
  slice l a b ++ slice l b' c = slice l a c.
Proof. intros <-. apply slice_app. Qed.

(** ** [read] in the block engine, on a layout *)

(** On the blocks laid out for [content], a read that ends within the
    content returns the slice of the content. *)
Lemma read_blocks_layout content size offset :
  0 <= offset -> 0 <= size -> offset + size <= len content ->
  HBFS.read_blocks (layout content) size offset
  = Ok (slice content offset (offset + size)).
Proof.
  intros Ho Hs Hend. unfold HBFS.read_blocks, HBFS.BLOCKSIZE.
  pose proof (Z.div_mod offset 512 ltac:(lia)) as Hdm.
  pose proof (Z.mod_pos_bound offset 512 ltac:(lia)) as Hrem.
  pose proof (Z.div_mod (len content) 512 ltac:(lia)) as Hcdm.
  pose proof (Z.mod_pos_bound (len content) 512 ltac:(lia)) as Hcrem.
  set (ob := offset / 512) in *. set (rem := offset mod 512) in *.
  set (n := len content / 512) in *.
  assert (Hob : 0 <= ob <= n) by lia.
  destruct (Z.leb_spec size (512 - rem)) as [H1|H1].
  - (* one block *)
    rewrite blk_layout by (fold n; lia). cbn [HBFS.obind andb].
    rewrite slice_slice by lia. f_equal. f_equal; lia.
  - destruct (Z.ltb_spec (512 - rem) size) as [_|]; [|lia].
    destruct (Z.leb_spec size (2 * 512 - rem)) as [H2|H2]; cbn [HBFS.obind andb].
    + (* two blocks *)
      rewrite len_layout. fold n.
      destruct (Z.ltb_spec (n + 1) (ob + 1)); [lia|].
      rewrite !blk_layout by (fold n; lia). cbn [HBFS.obind andb].
      unfold slice_from, slice_to.
      rewrite len_slice by lia.
      rewrite !slice_slice by lia.
      rewrite slice_glue by lia. f_equal. f_equal; lia.
    + (* more than two blocks *)
      rewrite blk_layout by (fold n; lia). cbn [HBFS.obind andb].
      pose proof (Z.div_mod (size - (512 - rem)) 512 ltac:(lia)) as Hfdm.
      pose proof (Z.mod_pos_bound (size - (512 - rem)) 512 ltac:(lia))
        as Hfrem.
      set (fbn := (size - (512 - rem)) / 512) in *.
      assert (Hfbn : 1 <= fbn) by lia.
      rewrite len_layout. fold n.
      destruct (Z.ltb_spec (n + 1) (ob + fbn + 1)); [lia|].
      rewrite append_blocks_layout by (fold n; lia). cbn [HBFS.obind andb].
      rewrite Z.max_r by lia.
      rewrite blk_layout by (fold n; lia). cbn [HBFS.obind andb].
      unfold slice_from, slice_to.
      rewrite len_slice by lia.
      rewrite !slice_slice by lia.
      rewrite Z2Nat.id by lia.
      rewrite !slice_glue by lia. f_equal. f_equal; lia.
Qed.

(** ** [write] in the block engine *)

(** On a layout, for an offset within the content, the string [write]
    builds starts with the content up to the offset followed by the
    data. *)
Lemma splice_layout content data offset :
  0 <= offset <= len content ->
  exists rest,
    HBFS.splice (layout content) data offset
    = Ok (slice content 0 offset ++ data ++ rest).
Proof.
  intros Ho. unfold HBFS.splice, HBFS.BLOCKSIZE.
  pose proof (Z.div_mod offset 512 ltac:(lia)) as Hdm.
  pose proof (Z.mod_pos_bound offset 512 ltac:(lia)) as Hrem.
  pose proof (Z.div_mod (len content) 512 ltac:(lia)) as Hcdm.
  pose proof (Z.mod_pos_bound (len content) 512 ltac:(lia)) as Hcrem.
  set (ob := offset / 512) in *. set (rem := offset mod 512) in *.
  set (n := len content / 512) in *.
  assert (Hob : 0 <= ob <= n) by lia.
  rewrite append_blocks_layout by (fold n; lia). cbn [HBFS.obind app].
  rewrite blk_layout by (fold n; lia). cbn [HBFS.obind].
  rewrite Z2Nat.id, Z.max_r by lia.
  assert (Hlen : rem <= len (slice content (ob * 512) ((ob + 1) * 512))).
  { rewrite slice_nat by lia. unfold len in *.
    rewrite length_firstn, length_skipn. lia. }
  destruct (Z.ltb_spec (len (slice content (ob * 512) ((ob + 1) * 512))) rem);
    [lia|].
  rewrite len_layout. fold n.
  rewrite append_blocks_layout by (fold n; lia).
  unfold slice_to. rewrite slice_slice by lia.
  eexists. f_equal. rewrite <- !app_assoc.
  rewrite app_assoc, slice_glue by lia.
  replace (ob * 512 + rem) with offset by lia. reflexivity.
Qed.


(** The run of [read] on stored blocks. *)
Lemma HBFS_read_run path size offset s blocks :
  dlook (fs_data s) (split path) = Some (VList blocks) ->
  HBFS.read path size offset s = (HBFS.read_blocks blocks size offset, s).
Proof.
  intros Hd. unfold HBFS.read, bind, traverse_data.
  rewrite (dwalk_dlook _ _ _ Hd). unfold dload. simpl. rewrite Hd. simpl.
  unfold HBFS.lift. now destruct s.
Qed.

(** The run of [write] on a file that has no blocks: the blocks become the
    layout of the data, whatever the offset. *)
Lemma HBFS_write_fresh path data offset s n m :
  node_at path s = Some n ->
  0 <= rfind path ->
  nonempty (target_part path) = true ->
  dlook (fs_data s) (split (parent_part path)) = Some (VDict m) ->
  stored HBFS.factory m (target_part path) = VList [] ->
  exists s',
    HBFS.write path data offset s = (Ok (len data), s')
    /\ dlook (fs_data s') (split path) = Some (VList (layout data))
    /\ node_at path s' = Some (set_size (len data) n)
    /\ fs_fd s' = fs_fd s.
Proof.
  intros Hn Hr Ht Hd Hb. unfold node_at in Hn.
  exists (mkState (update (set_size (len data)) (fs_files s) (split path))
            (dupdate
               (fun _ => VDict (set m (target_part path)
                                  (VList (layout data))))
               (fs_data s) (split (parent_part path)))
            (fs_fd s)).
  split; [|split; [|split]].
  - unfold HBFS.write, bind, traverse. rewrite Hn.
    unfold traverseparent_data. rewrite (dwalk_dlook _ _ _ Hd).
    cbn [fst snd fs_files fs_data fs_fd].
    unfold stored in Hb. unfold getitem, setitem, bind, dload, dstore.
    cbn [fs_files fs_data fs_fd]. rewrite Hd.
    destruct (get m (target_part path)) as [v|] eqn:Eg.
    + subst v. unfold ret. cbn [HBFS.dlen len List.length Z.of_nat Z.eqb].
      cbn [fs_files fs_data fs_fd]. rewrite Hd. reflexivity.
    + unfold ret, HBFS.factory.
      cbn [HBFS.dlen len List.length Z.of_nat Z.eqb].
      cbn [fs_files fs_data fs_fd].
      rewrite (dlook_dupdate _ _ _ Hd). cbn [fs_files fs_data fs_fd].
      rewrite (dupdate_dupdate _ _ _ _ Hd), set_set. reflexivity.
  - cbn [fs_data]. rewrite (split_parent _ Hr), dlook_app.
    rewrite (dlook_dupdate _ _ _ Hd), (dlook_child _ _ Ht), get_set_same.
    reflexivity.
  - unfold node_at. cbn [fs_files]. now apply walk_update.
  - reflexivity.
Qed.

(** The run of [write] on a file that has blocks: the blocks become the
    layout of the string that [splice] builds. *)
Lemma HBFS_write_splice path data offset s n m blocks data_str :
  node_at path s = Some n ->
  0 <= rfind path ->
  nonempty (target_part path) = true ->
  dlook (fs_data s) (split (parent_part path)) = Some (VDict m) ->
  get m (target_part path) = Some (VList blocks) ->
  blocks <> [] ->
  HBFS.splice blocks data offset = Ok data_str ->
  exists s',
    HBFS.write path data offset s = (Ok (len data), s')
    /\ dlook (fs_data s') (split path) = Some (VList (layout data_str))
    /\ node_at path s' = Some (set_size (len data_str) n)
    /\ fs_fd s' = fs_fd s.
Proof.
  intros Hn Hr Ht Hd Hb Hne Hsp. unfold node_at in Hn.
  exists (mkState (update (set_size (len data_str)) (fs_files s) (split path))
            (dupdate
               (fun _ => VDict (set m (target_part path)
                                  (VList (layout data_str))))
               (fs_data s) (split (parent_part path)))
            (fs_fd s)).
  split; [|split; [|split]].
  - unfold HBFS.write, bind, traverse. rewrite Hn.
    unfold traverseparent_data. rewrite (dwalk_dlook _ _ _ Hd).
    cbn [fst snd fs_files fs_data fs_fd].
    unfold getitem, setitem, bind, dload, dstore.
    cbn [fs_files fs_data fs_fd]. rewrite Hd, Hb. unfold ret.
    assert (Hlen : (HBFS.dlen (VList blocks) =? 0) = false).
    { apply Z.eqb_neq. unfold HBFS.dlen, len.
      destruct blocks; [congruence|simpl; lia]. }
    rewrite Hlen. cbn [HBFS.blocks_of]. unfold ret, HBFS.lift.
    rewrite Hsp. cbn [fs_files fs_data fs_fd]. rewrite Hd.
    unfold layout. now rewrite Z.add_simpl_r.
  - cbn [fs_data]. rewrite (split_parent _ Hr), dlook_app.
    rewrite (dlook_dupdate _ _ _ Hd), (dlook_child _ _ Ht), get_set_same.
    reflexivity.
  - unfold node_at. cbn [fs_files]. now apply walk_update.
  - reflexivity.
Qed.

(** The slice that covers the middle of three pieces. *)
Lemma slice_mid {A : Type} (x d rest : list A) o :
  len x = o -> slice (x ++ d ++ rest) o (o + len d) = d.
Proof.
  intros <-. pose proof (len_nonneg d).
  rewrite <- (Z.add_0_r (len x)) at 1.
  rewrite slice_app_r, slice_app_l, slice_all by lia. reflexivity.
Qed.

(** ** C2: [write] *)




(** ** C5: [write] followed by [read] *)

(** C5 fails as stated: on a freshly created file, [write] of the two
    bytes [ab] at offset 1 followed by [read] of two bytes at offset 1
    returns the single byte [b], in either engine. *)
Lemma C5_fresh_file_at_offset_one :
  outcome_of ((HFS.write "/a" (text "ab") 1 ;; HFS.read "/a" 2 1) created_a)
    = Ok (text "b")
  /\ outcome_of
       ((HBFS.write "/a" (text "ab") 1 ;; HBFS.read "/a" 2 1) created_a)
     = Ok (text "b")
  /\ @Ok bytes (text "b") <> Ok (text "ab").
Proof. repeat split; try (vm_compute; reflexivity). discriminate. Qed.

(** C5, amended: let [path] name a node, have a separator and a non-empty
    last component, and let its parent directory be in the content store.
    [write] of [data] at an offset that is not negative and not beyond the
    end of the old content, followed by [read] of [len(data)] bytes at the
    same offset, returns [data]:
    - in the flat engine, for any old content (the empty content of a
      freshly created file leaves offset 0 only);
    - in the block engine, for a file that has no blocks and offset 0, and
      for a file whose blocks are those [write] lays out for its
      content. *)
Theorem C5_write_then_read :
  forall (path : string) (data : bytes) (offset : Z) (s : state) (n : node)
         (m : dict dval),
    node_at path s = Some n ->
    0 <= rfind path ->
    nonempty (target_part path) = true ->
    dlook (fs_data s) (split (parent_part path)) = Some (VDict m) ->
    0 <= offset ->
    (forall buffer,
        stored HFS.factory m (target_part path) = VStr buffer ->
        offset <= len buffer ->
        exists s',
          HFS.write path data offset s = (Ok (len data), s')
          /\ HFS.read path (len data) offset s' = (Ok data, s'))
    /\ (stored HBFS.factory m (target_part path) = VList [] ->
        offset = 0 ->
        exists s',
          HBFS.write path data offset s = (Ok (len data), s')
          /\ HBFS.read path (len data) offset s' = (Ok data, s'))
    /\ (forall buffer,
          get m (target_part path) = Some (VList (layout buffer)) ->
          offset <= len buffer ->
          exists s',
            HBFS.write path data offset s = (Ok (len data), s')
            /\ HBFS.read path (len data) offset s' = (Ok data, s')).
Proof.
  intros path data offset s n m Hn Hr Ht Hd Ho.
  pose proof (len_nonneg data) as Hdata. split; [|split].
  - intros buffer Hb Hlen.
    destruct (@HFS_write_run _ data offset _ _ _ _ Hn Hr Ht Hd Hb)
      as (s' & Hw & Hc & _).
    exists s'. split; [exact Hw|].
    rewrite (@HFS_read_run path (len data) offset s' _ Hc). do 2 f_equal.
    rewrite <- (app_nil_r data) at 1.
    apply slice_mid. unfold slice_to. rewrite len_slice; lia.
  - intros Hb ->.
    destruct (@HBFS_write_fresh _ data 0 _ _ _ Hn Hr Ht Hd Hb)
      as (s' & Hw & Hc & _).
    exists s'. split; [exact Hw|].
    rewrite (@HBFS_read_run path (len data) 0 s' _ Hc).
    rewrite read_blocks_layout by lia.
    do 2 f_equal. apply slice_all. lia.
  - intros buffer Hb Hlen.
    destruct (@splice_layout buffer data offset ltac:(lia)) as (rest & Hsp).
    assert (Hne : layout buffer <> []).
    { intros E. pose proof (len_layout buffer) as Hl. rewrite E in Hl.
      assert (0 <= len buffer / 512)
        by (apply Z.div_pos; [apply len_nonneg|lia]).
      unfold len in Hl at 1. simpl in Hl. lia. }
    destruct (@HBFS_write_splice _ _ _ _ _ _ _ _ Hn Hr Ht Hd Hb Hne Hsp)
      as (s' & Hw & Hc & _).
    exists s'. split; [exact Hw|].
    rewrite (@HBFS_read_run path (len data) offset s' _ Hc).
    assert (Hx : len (slice buffer 0 offset) = offset)
      by (rewrite len_slice; lia).
    rewrite read_blocks_layout; try lia.
    + do 2 f_equal. now apply slice_mid.
    + rewrite !len_app, Hx. pose proof (len_nonneg rest). lia.
Qed.

Lemma C5_write_then_read_witness :
  exists s',
    HFS.write "/f" (text "XY") 2 flat_abcdef = (Ok 2, s')
    /\ HFS.read "/f" 2 2 s' = (Ok (text "XY"), s').
Proof.
  destruct (@C5_write_then_read "/f" (text "XY") 2 flat_abcdef
              node_abcdef [("f"%string, VStr (text "abcdef"))])
    as [H _].
  - vm_compute. reflexivity.
  - vm_compute. discriminate.
  - vm_compute. reflexivity.
  - vm_compute. reflexivity.
  - lia.
  - destruct (H (text "abcdef") eq_refl ltac:(vm_compute; discriminate))
      as (s' & Hw & Hrd).
    exists s'. split; assumption.
Defined.


(** * Further properties of the operations *)

(** ** Resolving paths *)

Lemma split_app_slash a b :
  split (a ++ String slash b) = split a ++ split b.
Proof.
  induction a as [|c r IH]; simpl.
  - reflexivity.
  - rewrite IH. destruct (Ascii.eqb c slash); [reflexivity|].
    destruct (split r) as [|h t] eqn:E; [now apply split_not_nil in E|].
    reflexivity.
Qed.

(** X1: [traverse] resolves a path piece by piece: what ["a/b"] names is
    what [b] names starting from the node that [a] names, and it names
    nothing when [a] names nothing.  A separator at the end of a path
    changes nothing. *)
Theorem X1_traverse_composes :
  forall (a b : string) (s : state),
    node_at (a ++ String slash b) s
    = match node_at a s with
      | Some n => walk n (split b)
      | None => None
      end
    /\ node_at (a ++ "/") s = node_at a s.
Proof.
  intros a b s. unfold node_at. split.
  - now rewrite split_app_slash, walk_app.
  - change "/"%string with (String slash EmptyString).
    rewrite split_app_slash, walk_app.
    now destruct (walk (fs_files s) (split a)).
Qed.

(** ** [getattr] *)

(** X2: [getattr] never changes the state; it returns the metadata of the
    node when the path resolves, and otherwise raises
    [FuseOSError(ENOENT)] and nothing else. *)
Theorem X2_getattr_or_ENOENT :
  forall (path : string) (s : state),
    state_of (getattr path s) = s
    /\ (forall n, node_at path s = Some n ->
                  outcome_of (getattr path s) = Ok (node_meta n))
    /\ (node_at path s = None ->
        outcome_of (getattr path s) = Raise (FuseOSError ENOENT))
    /\ (forall e, outcome_of (getattr path s) = Raise e ->
                  e = FuseOSError ENOENT /\ node_at path s = None).
Proof.
  intros path s.
  unfold getattr, bind, catch_KeyError, traverse, load, ret, raise, node_at.
  destruct (walk (fs_files s) (split path)) as [n|] eqn:E; simpl.
  - rewrite E. simpl. repeat split; try congruence; discriminate.
  - repeat split; try congruence; discriminate.
Qed.

(** ** Extended attributes *)

Lemma remove_absent {V : Type} (d : dict V) k :
  get d k = None -> remove d k = d.
Proof.
  induction d as [|[k' v'] d IH]; simpl; auto.
  destruct (String.eqb k k'); [discriminate|].
  intros H. now rewrite IH.
Qed.

(** A mutation that leaves the node as it is leaves the tree as it is. *)
Lemma update_id f comps : forall p n,
  walk p comps = Some n -> f n = n -> update f p comps = p.
Proof.
  induction comps as [|i rest IH]; simpl; intros p n H Hf.
  - congruence.
  - destruct (nonempty i); [|eauto].
    destruct (files p) as [kids|] eqn:Ef; [|discriminate].
    destruct (get kids i) as [c|] eqn:Eg; [|discriminate].
    rewrite (IH _ _ H Hf), (set_get_id _ _ Eg).
    destruct p as [m f']; simpl in *. congruence.
Qed.

Lemma state_eta s : mkState (fs_files s) (fs_data s) (fs_fd s) = s.
Proof. now destruct s. Qed.

Lemma attrs_set_attrs a n : attrs_or_empty (set_attrs a n) = a.
Proof. now destruct n. Qed.

(** X3: after [setxattr path name value], [getxattr path name] returns
    [value]; what [getxattr] returns for every other name is as before, and
    the content store is untouched. *)
Theorem X3_setxattr_then_getxattr :
  forall (path name : string) (value : bytes) (s : state) (n : node),
    node_at path s = Some n ->
    exists s',
      setxattr path name value s = (Ok tt, s')
      /\ getxattr path name s' = (Ok value, s')
      /\ (forall name', name <> name' ->
            outcome_of (getxattr path name' s')
            = outcome_of (getxattr path name' s))
      /\ fs_data s' = fs_data s.
Proof.
  intros path name value s n Hn. unfold node_at in Hn.
  eexists. split.
  { unfold setxattr, bind, traverse, load, store. rewrite Hn. simpl.
    rewrite Hn. reflexivity. }
  unfold getxattr, bind, traverse, load, ret. simpl.
  rewrite (walk_update _ _ _ Hn), Hn. simpl.
  rewrite (walk_update _ _ _ Hn), attrs_set_attrs, get_set_same.
  repeat split.
  intros name' Hne. rewrite (get_set_other _ _ Hne).
  rewrite Hn. now destruct (get (attrs_or_empty n) name').
Qed.

Lemma X3_setxattr_witness :
  exists s',
    setxattr "/f" "user.k" (text "v") flat_abcdef = (Ok tt, s')
    /\ getxattr "/f" "user.k" s' = (Ok (text "v"), s').
Proof.
  destruct (@X3_setxattr_then_getxattr "/f" "user.k" (text "v") flat_abcdef
              node_abcdef ltac:(vm_compute; reflexivity))
    as (s' & H1 & H2 & _).
  exists s'. split; assumption.
Defined.

(** X4: for a name that the node has no attribute for, [getxattr] returns
    the empty string and [removexattr] succeeds, and both leave the state
    as it was. *)
Theorem X4_missing_attribute :
  forall (path name : string) (s : state) (n : node),
    node_at path s = Some n ->
    get (attrs_or_empty n) name = None ->
    getxattr path name s = (Ok [], s)
    /\ removexattr path name s = (Ok tt, s).
Proof.
  intros path name s n Hn Hg. unfold node_at in Hn. split.
  - unfold getxattr, bind, traverse, load, ret. rewrite Hn. simpl.
    now rewrite Hn, Hg.
  - unfold removexattr, bind, traverse, load, ret, store. rewrite Hn. simpl.
    rewrite Hn. unfold attrs_or_empty in Hg.
    destruct (attrs (node_meta n)) as [a|] eqn:Ea; [|reflexivity].
    simpl. rewrite (remove_absent _ _ Hg).
    rewrite (@update_id _ _ _ _ Hn), state_eta; [reflexivity|].
    destruct n as [[] f]; simpl in *. congruence.
Qed.

Lemma X4_missing_attribute_witness :
  getxattr "/f" "user.k" flat_abcdef = (Ok [], flat_abcdef)
  /\ removexattr "/f" "user.k" flat_abcdef = (Ok tt, flat_abcdef).
Proof.
  apply (@X4_missing_attribute "/f" "user.k" flat_abcdef node_abcdef);
    vm_compute; reflexivity.
Defined.

(** ** [create], [mkdir], [rmdir], [unlink], [symlink] *)

Lemma keys_set_fresh {V : Type} (d : dict V) k v :
  get d k = None -> map fst (set d k v) = map fst d ++ [k].
Proof.
  induction d as [|[k' v'] d IH]; simpl; auto.
  destruct (String.eqb k k'); [discriminate|].
  intros H. simpl. now rewrite IH.
Qed.

Lemma keys_set_present {V : Type} (d : dict V) k v v0 :
  get d k = Some v0 -> map fst (set d k v) = map fst d.
Proof.
  induction d as [|[k' v'] d IH]; simpl; [discriminate|].
  destruct (String.eqb k k'); [reflexivity|].
  intros H. simpl. now rewrite IH.
Qed.

Lemma remove_set_fresh {V : Type} (d : dict V) k v :
  get d k = None -> remove (set d k v) k = d.
Proof.
  induction d as [|[k' v'] d IH]; simpl.
  - now rewrite String.eqb_refl.
  - destruct (String.eqb k k') eqn:E; [discriminate|].
    intros H. simpl. now rewrite E, IH.
Qed.

Lemma walk_child n k :
  nonempty k = true ->
  walk n [k] = match files n with
               | Some kids => get kids k
               | None => None
               end.
Proof.
  intros H. simpl. rewrite H.
  destruct (files n) as [kids|]; [|reflexivity]. now destruct (get kids k).
Qed.

(** Resolving the path of a child after the children of its parent have
    been assigned to. *)
Lemma walk_new_child path root p kids' f :
  0 <= rfind path ->
  nonempty (target_part path) = true ->
  walk root (split (parent_part path)) = Some p ->
  files (f p) = Some kids' ->
  walk (update f root (split (parent_part path))) (split path)
  = get kids' (target_part path).
Proof.
  intros Hr Ht Hp Hf.
  rewrite (split_parent _ Hr), walk_app.
  rewrite (walk_update _ _ _ Hp), walk_child by exact Ht.
  now rewrite Hf.
Qed.

(** A path that has a separator and a non-empty last component resolves
    to a node only through its parent: the part before the last
    separator resolves to a node that has the last component among its
    children. *)
Lemma resolves_through_parent path s c :
  0 <= rfind path ->
  nonempty (target_part path) = true ->
  node_at path s = Some c ->
  exists p kids,
    walk (fs_files s) (split (parent_part path)) = Some p
    /\ files p = Some kids
    /\ get kids (target_part path) = Some c.
Proof.
  intros Hr Ht Hn. unfold node_at in Hn.
  rewrite (split_parent _ Hr), walk_app in Hn.
  destruct (walk (fs_files s) (split (parent_part path))) as [p|];
    [|discriminate].
  rewrite walk_child in Hn by exact Ht.
  destruct (files p) as [kids|] eqn:Ek; [|discriminate].
  exists p, kids. auto.
Qed.

(** X5: where the part of [path] before its last separator resolves to a
    directory, [create] returns the descriptor counter plus one, and
    afterwards [path] resolves to a regular file of the given mode with
    link count 1 and size 0; the content store is untouched, and [readdir]
    of the parent lists, in whatever order the dictionary yields its keys,
    the names it had and the new name, or the names it had when the name
    was among them. *)
Theorem X5_create_makes_the_file :
  forall (order : key_order) (path : string) (mode t1 t2 t3 : Z) (s : state)
         (p : node) (kids : dict node),
    (forall l, Permutation (order l) l) ->
    0 <= rfind path ->
    nonempty (target_part path) = true ->
    walk (fs_files s) (split (parent_part path)) = Some p ->
    files p = Some kids ->
    exists s',
      create path mode t1 t2 t3 s = (Ok (fs_fd s + 1), s')
      /\ node_at path s' = Some (file_node mode t1 t2 t3)
      /\ fs_data s' = fs_data s
      /\ fs_fd s' = fs_fd s + 1
      /\ exists names,
          readdir order (parent_part path) s'
          = (Ok ("."%string :: ".."%string :: names), s')
          /\ (get kids (target_part path) = None ->
              Permutation names (target_part path :: map fst kids))
          /\ (get kids (target_part path) <> None ->
              Permutation names (map fst kids)).
Proof.
  intros order path mode t1 t2 t3 s p kids Hord Hr Ht Hp Hk.
  eexists. split.
  { cbv [create bind traverseparent children load store next_fd ret raise].
    rewrite Hp. cbv beta iota. rewrite Hp. cbv beta iota.
    rewrite Hk. cbv beta iota. reflexivity. }
  fold (file_node mode t1 t2 t3).
  assert (Hf : files (set_files
                        (set kids (target_part path)
                           (file_node mode t1 t2 t3)) p)
               = Some (set kids (target_part path)
                         (file_node mode t1 t2 t3)))
    by apply files_set_files.
  unfold node_at. cbn [fs_files fs_data fs_fd].
  split; [|split; [|split]]; try reflexivity.
  - rewrite (@walk_new_child _ _ _ _ _ Hr Ht Hp Hf). apply get_set_same.
  - eexists. split.
    { cbv [readdir bind traverse children load ret raise].
      cbn [fs_files]. rewrite (walk_update _ _ _ Hp). cbv beta iota.
      cbn [fs_files]. rewrite (walk_update _ _ _ Hp). cbv beta iota.
      rewrite Hf. cbv beta iota. reflexivity. }
    split.
    + intros Hnew. rewrite keys_set_fresh by exact Hnew.
      rewrite Hord. symmetry. apply Permutation_cons_append.
    + intros Hold.
      destruct (get kids (target_part path)) as [v0|] eqn:Eg; [|congruence].
      rewrite (@keys_set_present _ _ _ _ _ Eg). apply Hord.
Qed.

Lemma X5_create_witness :
  exists s',
    create "/g" 420 1 1 1 flat_abcdef = (Ok 2, s')
    /\ node_at "/g" s' = Some (file_node 420 1 1 1)
    /\ exists names,
        readdir (@rev string) "" s'
        = (Ok ("."%string :: ".."%string :: names), s')
        /\ Permutation names ["g"; "f"]%string.
Proof.
  assert (Hp : exists p kids,
             walk (fs_files flat_abcdef) (split (parent_part "/g")) = Some p
             /\ files p = Some kids /\ get kids "g" = None
             /\ map fst kids = ["f"%string])
    by (exists (Node (mkMeta 16877 2 None (Some 0) (Some 0) (Some 0)
                        None None None)
                  (Some [("f"%string, node_abcdef)])),
               [("f"%string, node_abcdef)];
        repeat split; vm_compute; reflexivity).
  destruct Hp as (p & kids & Hp & Hk & Hg & Hn).
  destruct (@X5_create_makes_the_file (@rev string) "/g" 420 1 1 1
              flat_abcdef p kids)
    as (s' & H1 & H2 & _ & _ & names & H5 & H6 & _);
    [intros l; symmetry; apply Permutation_rev
    | vm_compute; discriminate | reflexivity | exact Hp | exact Hk |].
  exists s'. split; [exact H1|]. split; [exact H2|].
  exists names. split; [exact H5|].
  specialize (H6 Hg). rewrite Hn in H6. exact H6.
Defined.

(** The run of [mkdir] where the parent is a directory in the name space
    and in the content store. *)
Lemma mkdir_run factory path mode t1 t2 t3 s p kids m :
  walk (fs_files s) (split (parent_part path)) = Some p ->
  files p = Some kids ->
  dlook (fs_data s) (split (parent_part path)) = Some (VDict m) ->
  mkdir factory path mode t1 t2 t3 s
  = (Ok tt,
     mkState
       (update (fun n => set_nlink (st_nlink (node_meta n) + 1) n)
          (update
             (set_files
                (set kids (target_part path) (new_dir_node mode t1 t2 t3)))
             (fs_files s) (split (parent_part path)))
          (split (parent_part path)))
       (dupdate (fun _ => VDict (set m (target_part path) (VDict [])))
          (fs_data s) (split (parent_part path)))
       (fs_fd s)).
Proof.
  intros Hp Hk Hd.
  cbv [mkdir bind traverseparent children load store ret raise
         traverseparent_data setitem dload dstore].
  rewrite Hp. cbv beta iota. rewrite Hp. cbv beta iota.
  rewrite Hk. cbv beta iota. cbn [fs_files fs_data fs_fd].
  rewrite (dwalk_dlook _ _ _ Hd). cbv beta iota.
  cbn [fs_files fs_data fs_fd]. rewrite Hd. reflexivity.
Qed.

(** The run of [rmdir] on an empty directory. *)
Lemma rmdir_run path s p kids c :
  walk (fs_files s) (split (parent_part path)) = Some p ->
  files p = Some kids ->
  get kids (target_part path) = Some c ->
  files c = Some [] ->
  rmdir path s
  = (Ok tt,
     mkState
       (update (fun n => set_nlink (st_nlink (node_meta n) - 1) n)
          (update (set_files (remove kids (target_part path)))
             (fs_files s) (split (parent_part path)))
          (split (parent_part path)))
       (fs_data s) (fs_fd s)).
Proof.
  intros Hp Hk Hc Hck.
  cbv [rmdir bind traverseparent child children load store ret raise].
  rewrite Hp. cbv beta iota. rewrite Hp. cbv beta iota.
  rewrite Hk. cbv beta iota. rewrite Hc. cbv beta iota.
  rewrite Hck. cbv beta iota.
  change (0 <? len (@nil (string * node))) with false. cbv beta iota.
  rewrite Hp. cbv beta iota. rewrite Hk. reflexivity.
Qed.

Lemma set_nlink_back p kids :
  files p = Some kids ->
  set_nlink (st_nlink (node_meta p) + 1 - 1) (set_files kids p) = p.
Proof.
  intros H. destruct p as [[] f]. simpl in *.
  rewrite Z.add_simpl_r. congruence.
Qed.

(** X6: where the parent of [path] is a directory in the name space and in
    the content store and the name is new, [mkdir] makes [path] resolve to
    an empty directory with link count 2, raises the link count of the
    parent by 1 and stores an empty dictionary for [path]; [rmdir] of the
    same path then succeeds and gives back the name space as it was before
    [mkdir], while the content store keeps the dictionary. *)
Theorem X6_mkdir_then_rmdir :
  forall (factory : dval) (path : string) (mode t1 t2 t3 : Z) (s : state)
         (p : node) (kids : dict node) (m : dict dval),
    0 <= rfind path ->
    nonempty (target_part path) = true ->
    walk (fs_files s) (split (parent_part path)) = Some p ->
    files p = Some kids ->
    get kids (target_part path) = None ->
    dlook (fs_data s) (split (parent_part path)) = Some (VDict m) ->
    exists s1 s2 p1,
      mkdir factory path mode t1 t2 t3 s = (Ok tt, s1)
      /\ node_at path s1 = Some (new_dir_node mode t1 t2 t3)
      /\ walk (fs_files s1) (split (parent_part path)) = Some p1
      /\ st_nlink (node_meta p1) = st_nlink (node_meta p) + 1
      /\ dlook (fs_data s1) (split path) = Some (VDict [])
      /\ rmdir path s1 = (Ok tt, s2)
      /\ fs_files s2 = fs_files s
      /\ fs_data s2 = fs_data s1
      /\ fs_fd s2 = fs_fd s.
Proof.
  intros factory path mode t1 t2 t3 s p kids m Hr Ht Hp Hk Hnew Hd.
  set (new := new_dir_node mode t1 t2 t3).
  set (f := set_files (set kids (target_part path) new)).
  set (g := fun n => set_nlink (st_nlink (node_meta n) + 1) n).
  pose proof (walk_update f _ _ Hp) as Hp1.
  pose proof (walk_update g _ _ Hp1) as Hp2.
  assert (Hk2 : files (g (f p)) = Some (set kids (target_part path) new)).
  { unfold g, f. destruct p. reflexivity. }
  eexists. eexists. exists (g (f p)).
  split; [exact (@mkdir_run factory path mode t1 t2 t3 _ _ _ _ Hp Hk Hd)|].
  cbn [fs_files fs_data fs_fd].
  fold new. fold f. fold g.
  split; [|split; [exact Hp2|split; [|split; [|split]]]].
  - unfold node_at. cbn [fs_files].
    rewrite (split_parent _ Hr), walk_app, Hp2.
    rewrite walk_child by exact Ht. rewrite Hk2. apply get_set_same.
  - unfold g, f. destruct p as [[] ?]. reflexivity.
  - rewrite (split_parent _ Hr), dlook_app, (dlook_dupdate _ _ _ Hd).
    rewrite dlook_child by exact Ht. apply get_set_same.
  - eapply rmdir_run; cbn [fs_files];
      [exact Hp2 | exact Hk2 | apply get_set_same | reflexivity].
  - cbn [fs_files fs_data fs_fd]. split; [|split; reflexivity].
    rewrite (update_update _ _ _ _ Hp2).
    rewrite (update_update _ _ _ _ Hp1).
    rewrite (update_update _ _ _ _ Hp).
    apply (@update_id _ _ _ _ Hp).
    rewrite remove_set_fresh by exact Hnew.
    unfold g, f. destruct p as [[] fl]. simpl in *.
    rewrite Z.add_simpl_r. congruence.
Qed.

Lemma X6_mkdir_then_rmdir_witness :
  exists s1 s2,
    HFS.mkdir "/d" 493 1 1 1 (init 0) = (Ok tt, s1)
    /\ node_at "/d" s1 = Some (new_dir_node 493 1 1 1)
    /\ rmdir "/d" s1 = (Ok tt, s2)
    /\ fs_files s2 = fs_files (init 0).
Proof.
  destruct (@X6_mkdir_then_rmdir HFS.factory "/d" 493 1 1 1 (init 0)
              (fs_files (init 0)) [] [])
    as (s1 & s2 & p1 & H1 & H2 & _ & _ & _ & H6 & H7 & _);
    [vm_compute; first [reflexivity | discriminate] .. |].
  exists s1, s2. repeat split; assumption.
Defined.

(** The run of [unlink] on a name the parent has. *)
Lemma unlink_run path s p kids c :
  walk (fs_files s) (split (parent_part path)) = Some p ->
  files p = Some kids ->
  get kids (target_part path) = Some c ->
  unlink path s
  = (Ok tt,
     mkState
       (update (set_files (remove kids (target_part path)))
          (fs_files s) (split (parent_part path)))
       (fs_data s) (fs_fd s)).
Proof.
  intros Hp Hk Hc.
  cbv [unlink bind traverseparent children load store ret raise].
  rewrite Hp. cbv beta iota. rewrite Hp. cbv beta iota.
  rewrite Hk. cbv beta iota. rewrite Hc. reflexivity.
Qed.

(** X7: where the parent of [path] is a directory and the name is new,
    [create] followed by [unlink] of the same path gives back the name
    space as it was, link counts included; the content store is untouched
    and the descriptor counter has advanced by one. *)
Theorem X7_create_then_unlink :
  forall (path : string) (mode t1 t2 t3 : Z) (s : state) (p : node)
         (kids : dict node),
    walk (fs_files s) (split (parent_part path)) = Some p ->
    files p = Some kids ->
    get kids (target_part path) = None ->
    exists s1 s2,
      create path mode t1 t2 t3 s = (Ok (fs_fd s + 1), s1)
      /\ unlink path s1 = (Ok tt, s2)
      /\ fs_files s2 = fs_files s
      /\ fs_data s2 = fs_data s
      /\ fs_fd s2 = fs_fd s + 1.
Proof.
  intros path mode t1 t2 t3 s p kids Hp Hk Hnew.
  set (f := set_files (set kids (target_part path)
                         (file_node mode t1 t2 t3))).
  pose proof (walk_update f _ _ Hp) as Hp1.
  eexists. eexists. split.
  { cbv [create bind traverseparent children load store next_fd ret raise].
    rewrite Hp. cbv beta iota. rewrite Hp. cbv beta iota.
    rewrite Hk. cbv beta iota. reflexivity. }
  fold (file_node mode t1 t2 t3). fold f.
  split.
  { eapply unlink_run; cbn [fs_files];
      [exact Hp1 | apply files_set_files | apply get_set_same]. }
  cbn [fs_files fs_data fs_fd]. split; [|split; reflexivity].
  rewrite (update_update _ _ _ _ Hp).
  apply (@update_id _ _ _ _ Hp).
  rewrite remove_set_fresh by exact Hnew.
  unfold f. destruct p as [mt fl]. simpl in *. congruence.
Qed.

Lemma X7_create_then_unlink_witness :
  exists s1 s2,
    create "/g" 420 1 1 1 flat_abcdef = (Ok 2, s1)
    /\ unlink "/g" s1 = (Ok tt, s2)
    /\ fs_files s2 = fs_files flat_abcdef.
Proof.
  destruct (@X7_create_then_unlink "/g" 420 1 1 1 flat_abcdef
              (fs_files flat_abcdef) [("f"%string, node_abcdef)])
    as (s1 & s2 & H1 & H2 & H3 & _);
    [vm_compute; reflexivity .. |].
  exists s1, s2. repeat split; assumption.
Defined.

(** The run of [symlink] where the parent is a directory in the name space
    and in the content store. *)
Lemma symlink_run factory target source s p kids m :
  walk (fs_files s) (split (parent_part target)) = Some p ->
  files p = Some kids ->
  dlook (fs_data s) (split (parent_part target)) = Some (VDict m) ->
  symlink factory target source s
  = (Ok tt,
     mkState
       (update
          (set_files (set kids (target_part target) (link_node source)))
          (fs_files s) (split (parent_part target)))
       (dupdate (fun _ => VDict (set m (target_part target) (VStr source)))
          (fs_data s) (split (parent_part target)))
       (fs_fd s)).
Proof.
  intros Hp Hk Hd.
  cbv [symlink bind traverseparent children load store ret raise
         traverseparent_data setitem dload dstore].
  rewrite Hp. cbv beta iota. rewrite Hp. cbv beta iota.
  rewrite Hk. cbv beta iota. cbn [fs_files fs_data fs_fd].
  rewrite (dwalk_dlook _ _ _ Hd). cbv beta iota.
  cbn [fs_files fs_data fs_fd]. rewrite Hd. reflexivity.
Qed.

(** X8: where the parent of [target] is a directory in the name space and
    in the content store, [symlink target source] makes [target] resolve to
    a link node (mode [S_IFLNK | 0o777], link count 1) whose size is the
    length of [source], and [readlink target] then returns [source] and
    changes nothing. *)
Theorem X8_symlink_then_readlink :
  forall (factory : dval) (target : string) (source : bytes) (s : state)
         (p : node) (kids : dict node) (m : dict dval),
    0 <= rfind target ->
    nonempty (target_part target) = true ->
    walk (fs_files s) (split (parent_part target)) = Some p ->
    files p = Some kids ->
    dlook (fs_data s) (split (parent_part target)) = Some (VDict m) ->
    exists s1,
      symlink factory target source s = (Ok tt, s1)
      /\ node_at target s1 = Some (link_node source)
      /\ st_size (node_meta (link_node source)) = Some (len source)
      /\ readlink factory target s1 = (Ok (VStr source), s1).
Proof.
  intros factory target source s p kids m Hr Ht Hp Hk Hd.
  eexists. split;
    [exact (@symlink_run factory target source _ _ _ _ Hp Hk Hd)|].
  split; [|split; [reflexivity|]].
  - unfold node_at. cbn [fs_files].
    rewrite (@walk_new_child _ _ _ _ _ Hr Ht Hp (files_set_files _ _)).
    apply get_set_same.
  - assert (Hl : dlook
                   (dupdate
                      (fun _ => VDict (set m (target_part target)
                                         (VStr source)))
                      (fs_data s) (split (parent_part target)))
                   (split target) = Some (VStr source)).
    { rewrite (split_parent _ Hr), dlook_app, (dlook_dupdate _ _ _ Hd).
      rewrite dlook_child by exact Ht. apply get_set_same. }
    cbv [readlink bind traverse_data dload].
    cbn [fs_files fs_data fs_fd].
    rewrite (dwalk_dlook _ _ _ Hl). cbv beta iota.
    cbn [fs_files fs_data fs_fd]. rewrite Hl. reflexivity.
Qed.

Lemma X8_symlink_then_readlink_witness :
  exists s1,
    HBFS.symlink "/l" (text "/f") block_abcdef = (Ok tt, s1)
    /\ node_at "/l" s1 = Some (link_node (text "/f"))
    /\ HBFS.readlink "/l" s1 = (Ok (VStr (text "/f")), s1).
Proof.
  destruct (@X8_symlink_then_readlink HBFS.factory "/l" (text "/f")
              block_abcdef (fs_files block_abcdef)
              [("f"%string, node_abcdef)]
              [("f"%string, VList [text "abcdef"])])
    as (s1 & H1 & H2 & _ & H4);
    [vm_compute; first [reflexivity | discriminate] .. |].
  exists s1. repeat split; assumption.
Defined.

(** ** Reading *)

(** X9: in the flat engine, [read] of a stored string with an offset and a
    size that are not negative returns the bytes from [offset] on, at most
    [size] of them, and changes nothing: exactly [size] bytes when the
    range lies within the content, none when the offset is at or beyond
    its end. *)
Theorem X9_flat_read_is_clipped_range :
  forall (path : string) (size offset : Z) (s : state) (buffer : bytes),
    dlook (fs_data s) (split path) = Some (VStr buffer) ->
    0 <= offset -> 0 <= size ->
    exists r,
      HFS.read path size offset s = (Ok r, s)
      /\ r = firstn (Z.to_nat size) (skipn (Z.to_nat offset) buffer)
      /\ (offset + size <= len buffer -> len r = size)
      /\ (len buffer <= offset -> r = []).
Proof.
  intros path size offset s buffer Hd Ho Hs.
  exists (slice buffer offset (offset + size)).
  split; [apply (@HFS_read_run path size offset s _ Hd)|].
  split; [|split].
  - rewrite slice_nat by lia. f_equal. lia.
  - intros H. rewrite len_slice; lia.
  - intros H. apply slice_beyond; lia.
Qed.

Lemma X9_flat_read_witness :
  HFS.read "/f" 3 2 flat_abcdef = (Ok (text "cde"), flat_abcdef).
Proof.
  destruct (@X9_flat_read_is_clipped_range "/f" 3 2 flat_abcdef
              (text "abcdef"))
    as (r & H1 & H2 & _); [vm_compute; reflexivity | lia | lia |].
  rewrite H1, H2. reflexivity.
Defined.

(** X10: the blocks that [write] of the block engine lays out for a
    content are [len / 512 + 1] in number, each of the first [len / 512]
    has exactly 512 bytes, the last one has the remaining [len mod 512]
    bytes, and their concatenation is the content. *)
Theorem X10_layout_blocks :
  forall (content : bytes),
    len (layout content) = len content / HBFS.BLOCKSIZE + 1
    /\ (forall i, 0 <= i < len content / HBFS.BLOCKSIZE ->
          exists b, HBFS.blk (layout content) i = Ok b
                    /\ len b = HBFS.BLOCKSIZE)
    /\ (exists b, HBFS.blk (layout content) (len content / HBFS.BLOCKSIZE)
                  = Ok b
                  /\ len b = len content mod HBFS.BLOCKSIZE)
    /\ List.concat (layout content) = content.
Proof.
  intros content. unfold HBFS.BLOCKSIZE.
  pose proof (len_nonneg content) as Hc.
  pose proof (Z.div_mod (len content) 512 ltac:(lia)) as Hdm.
  pose proof (Z.mod_pos_bound (len content) 512 ltac:(lia)) as Hrem.
  assert (Hn : 0 <= len content / 512) by (apply Z.div_pos; lia).
  split; [apply len_layout|]. split; [|split; [|apply concat_layout]].
  - intros i Hi. eexists. split; [apply blk_layout; lia|].
    rewrite len_slice; lia.
  - eexists. split; [apply blk_layout; lia|].
    rewrite slice_clip by lia. rewrite len_slice; lia.
Qed.

(** X11: in the block engine, on a file whose blocks are laid out as
    [write] lays them out, [read] with a range that lies within the
    content returns exactly the bytes of the range and changes nothing. *)
Theorem X11_block_read_within_content :
  forall (path : string) (size offset : Z) (s : state) (content : bytes),
    dlook (fs_data s) (split path) = Some (VList (layout content)) ->
    0 <= offset -> 0 <= size -> offset + size <= len content ->
    HBFS.read path size offset s
    = (Ok (firstn (Z.to_nat size) (skipn (Z.to_nat offset) content)), s).
Proof.
  intros path size offset s content Hd Ho Hs Hend.
  rewrite (@HBFS_read_run path size offset s _ Hd).
  rewrite read_blocks_layout by lia.
  rewrite slice_nat by lia. do 3 f_equal. lia.
Qed.

Lemma X11_block_read_witness :
  HBFS.read "/f" 3 2 block_abcdef = (Ok (text "cde"), block_abcdef).
Proof.
  apply (@X11_block_read_within_content "/f" 3 2 block_abcdef
           (text "abcdef"));
    [vm_compute; reflexivity | lia | lia | vm_compute; discriminate].
Defined.

Lemma len_slice_min {A : Type} (l : list A) a b :
  0 <= a <= b -> a <= len l -> len (slice l a b) = Z.min b (len l) - a.
Proof.
  intros Hab Ha. rewrite slice_nat by lia. unfold len in *.
  rewrite length_firstn, length_skipn. lia.
Qed.

(** On a layout, a read of more than two blocks that asks for more than
    1024 bytes beyond the end of the content takes the branch that copies
    every block that is left. *)
Lemma read_blocks_layout_tail content size offset :
  0 <= offset <= len content ->
  len content + 1024 < offset + size ->
  HBFS.read_blocks (layout content) size offset
  = Ok (slice content offset (len content)).
Proof.
  intros Ho Hend. unfold HBFS.read_blocks, HBFS.BLOCKSIZE.
  pose proof (Z.div_mod offset 512 ltac:(lia)) as Hdm.
  pose proof (Z.mod_pos_bound offset 512 ltac:(lia)) as Hrem.
  pose proof (Z.div_mod (len content) 512 ltac:(lia)) as Hcdm.
  pose proof (Z.mod_pos_bound (len content) 512 ltac:(lia)) as Hcrem.
  set (ob := offset / 512) in *. set (rem := offset mod 512) in *.
  set (n := len content / 512) in *.
  assert (Hob : 0 <= ob <= n) by lia.
  destruct (Z.leb_spec size (512 - rem)); [lia|].
  destruct (Z.ltb_spec (512 - rem) size); [|lia].
  destruct (Z.leb_spec size (2 * 512 - rem)); [lia|]. cbn [andb].
  rewrite blk_layout by (fold n; lia). cbn [HBFS.obind].
  pose proof (Z.div_mod (size - (512 - rem)) 512 ltac:(lia)) as Hfdm.
  pose proof (Z.mod_pos_bound (size - (512 - rem)) 512 ltac:(lia)) as Hfrem.
  set (fbn := (size - (512 - rem)) / 512) in *.
  rewrite len_layout. fold n.
  destruct (Z.ltb_spec (n + 1) (ob + fbn + 1)); [|lia].
  rewrite append_blocks_layout by (fold n; lia).
  unfold slice_from.
  rewrite len_slice_min by lia.
  rewrite slice_slice by lia.
  rewrite Z2Nat.id by lia.
  destruct (Z.eq_dec ob n) as [Hn|Hn].
  - rewrite (@slice_empty _ content ((ob + 1) * 512)) by lia.
    rewrite app_nil_r.
    f_equal. f_equal; lia.
  - rewrite slice_glue by lia.
    f_equal. rewrite (slice_clip content) by lia. f_equal. lia.
Qed.

(** X12: in the block engine, on a file whose blocks are laid out as
    [write] lays them out, [read] from an offset within the content that
    asks for more than 1024 bytes beyond the end of the content returns
    everything from the offset to the end, and changes nothing. *)
Theorem X12_block_read_to_the_end :
  forall (path : string) (size offset : Z) (s : state) (content : bytes),
    dlook (fs_data s) (split path) = Some (VList (layout content)) ->
    0 <= offset <= len content ->
    len content + 1024 < offset + size ->
    HBFS.read path size offset s
    = (Ok (skipn (Z.to_nat offset) content), s).
Proof.
  intros path size offset s content Hd Ho Hend.
  rewrite (@HBFS_read_run path size offset s _ Hd).
  rewrite read_blocks_layout_tail by lia.
  pose proof (len_nonneg content).
  rewrite slice_nat by lia. do 2 f_equal.
  apply firstn_all2. unfold len in *. rewrite length_skipn. lia.
Qed.

Lemma X12_block_read_witness :
  HBFS.read "/f" 4096 2 block_abcdef = (Ok (text "cdef"), block_abcdef).
Proof.
  apply (@X12_block_read_to_the_end "/f" 4096 2 block_abcdef
           (text "abcdef"));
    [vm_compute; reflexivity | vm_compute; split; discriminate
    | vm_compute; reflexivity].
Defined.

(** ** The size after [write] *)

(** The run of [write] on a file that has blocks, when building the new
    string raises: nothing has been assigned. *)
Lemma HBFS_write_raise path data offset s n m blocks e :
  node_at path s = Some n ->
  dlook (fs_data s) (split (parent_part path)) = Some (VDict m) ->
  get m (target_part path) = Some (VList blocks) ->
  blocks <> [] ->
  HBFS.splice blocks data offset = Raise e ->
  HBFS.write path data offset s = (Raise e, s).
Proof.
  intros Hn Hd Hb Hne Hsp. unfold node_at in Hn.
  unfold HBFS.write, bind, traverse. rewrite Hn.
  unfold traverseparent_data. rewrite (dwalk_dlook _ _ _ Hd).
  cbn [fst snd fs_files fs_data fs_fd].
  unfold getitem, setitem, bind, dload, dstore.
  cbn [fs_files fs_data fs_fd]. rewrite Hd, Hb. unfold ret.
  assert (Hlen : (HBFS.dlen (VList blocks) =? 0) = false).
  { apply Z.eqb_neq. unfold HBFS.dlen, len.
    destruct blocks; [congruence|simpl; lia]. }
  rewrite Hlen. cbn [HBFS.blocks_of]. unfold ret, HBFS.lift.
  rewrite Hsp. now rewrite state_eta.
Qed.

(** X13: a [write] that succeeds returns [len(data)] and leaves the
    reported size equal to the length of the content it stored, in the
    flat engine for a file kept as a string and in the block engine for a
    file kept as a list of blocks; the other fields of the node are as
    before. *)
Theorem X13_write_sets_size_to_content_length :
  forall (path : string) (data : bytes) (offset : Z) (s : state) (n : node)
         (m : dict dval),
    node_at path s = Some n ->
    0 <= rfind path ->
    nonempty (target_part path) = true ->
    dlook (fs_data s) (split (parent_part path)) = Some (VDict m) ->
    (forall buffer,
        stored HFS.factory m (target_part path) = VStr buffer ->
        exists s' c,
          HFS.write path data offset s = (Ok (len data), s')
          /\ content_at path s' = Some c
          /\ node_at path s' = Some (set_size (len c) n))
    /\ (forall blocks r s',
          stored HBFS.factory m (target_part path) = VList blocks ->
          HBFS.write path data offset s = (Ok r, s') ->
          r = len data
          /\ exists c,
              content_at path s' = Some c
              /\ node_at path s' = Some (set_size (len c) n)).
Proof.
  intros path data offset s n m Hn Hr Ht Hd. split.
  - intros buffer Hb.
    destruct (@HFS_write_run _ data offset _ _ _ _ Hn Hr Ht Hd Hb)
      as (s' & Hw & Hc & Hs & _).
    exists s', (slice_to buffer offset ++ data).
    unfold content_at. rewrite Hc. auto.
  - intros blocks r s' Hb Hw.
    destruct blocks as [|b0 rest].
    + destruct (@HBFS_write_fresh _ data offset _ _ _ Hn Hr Ht Hd Hb)
        as (s1 & Hw1 & Hc & Hs & _).
      rewrite Hw1 in Hw. inversion Hw; subst r s1. split; [reflexivity|].
      exists data. unfold content_at. rewrite Hc. simpl.
      now rewrite concat_layout.
    + assert (Hg : get m (target_part path) = Some (VList (b0 :: rest))).
      { unfold stored, HBFS.factory in Hb.
        destruct (get m (target_part path)); congruence. }
      assert (Hne : b0 :: rest <> []) by discriminate.
      destruct (HBFS.splice (b0 :: rest) data offset) as [data_str|e] eqn:Hsp.
      * destruct (@HBFS_write_splice _ _ _ _ _ _ _ _ Hn Hr Ht Hd Hg Hne Hsp)
          as (s1 & Hw1 & Hc & Hs & _).
        rewrite Hw1 in Hw. inversion Hw; subst r s1. split; [reflexivity|].
        exists data_str. unfold content_at. rewrite Hc. simpl.
        now rewrite concat_layout.
      * rewrite (@HBFS_write_raise _ _ _ _ _ _ _ _ Hn Hd Hg Hne Hsp) in Hw.
        discriminate.
Qed.

Lemma X13_write_size_witness :
  exists s',
    HBFS.write "/f" (text "XY") 2 block_abcdef = (Ok 2, s')
    /\ option_map len (content_at "/f" s') = Some 14
    /\ size_of "/f" s' = Ok (Some 14).
Proof.
  destruct (@X13_write_sets_size_to_content_length "/f" (text "XY") 2
              block_abcdef node_abcdef
              [("f"%string, VList [text "abcdef"])])
    as [_ H];
    [vm_compute; first [reflexivity | discriminate] .. |].
  eexists. split; [vm_compute; reflexivity|].
  destruct (H [text "abcdef"] _ _ eq_refl eq_refl) as (_ & c & Hc & Hs).
  split; vm_compute; reflexivity.
Defined.

(** ** [truncate] *)

Lemma dupdate_id f comps : forall p v,
  dlook p comps = Some v -> f v = v -> dupdate f p comps = p.
Proof.
  induction comps as [|i rest IH]; simpl; intros p v H Hf.
  - congruence.
  - destruct (nonempty i); [|eauto].
    destruct p as [s|l|d]; try discriminate.
    destruct (get d i) as [c|] eqn:Eg; [|discriminate].
    now rewrite (IH _ _ H Hf), (set_get_id _ _ Eg).
Qed.

Lemma delete_rest_done fuel d i :
  len d <= i -> HBFS.delete_rest fuel d i = d.
Proof.
  intros H. destruct fuel; simpl; [reflexivity|].
  destruct (Z.ltb_spec i (len d)); [lia|reflexivity].
Qed.

Lemma set_index_same {A : Type} (d : list A) i b :
  0 <= i -> nth_error d (Z.to_nat i) = Some b -> set_index d i b = d.
Proof.
  intros Hi Hn. unfold set_index, norm.
  destruct (Z.ltb_spec i 0); [lia|].
  rewrite <- (skipn_nth_error _ _ Hn). apply firstn_skipn.
Qed.

Lemma blk_out_of_range d i : len d <= i -> HBFS.blk d i = Raise IndexError.
Proof.
  intros H. pose proof (len_nonneg d). unfold HBFS.blk, index, norm.
  destruct (Z.ltb_spec i 0); [lia|].
  destruct (Z.ltb_spec i (len d)); [lia|].
  now rewrite andb_false_r.
Qed.

(** What the body of [truncate] computes on a layout: it never assigns
    blocks other than the ones it found. *)
Lemma truncate_blocks_layout content length :
  0 <= length ->
  HBFS.truncate_blocks (layout content) length
  = if length <? len content then Ok (None, 0)
    else if length <? 512 * (len content / 512 + 1)
         then Ok (Some (layout content), length)
         else Raise IndexError.
Proof.
  intros Hl. unfold HBFS.truncate_blocks, HBFS.BLOCKSIZE.
  pose proof (len_nonneg content) as Hc.
  pose proof (Z.div_mod (len content) 512 ltac:(lia)) as Hcdm.
  pose proof (Z.mod_pos_bound (len content) 512 ltac:(lia)) as Hcrem.
  pose proof (Z.div_mod length 512 ltac:(lia)) as Hdm.
  pose proof (Z.mod_pos_bound length 512 ltac:(lia)) as Hrem.
  rewrite len_layout.
  set (n := len content / 512) in *.
  assert (Hn : 0 <= n) by (apply Z.div_pos; lia).
  replace (Z.max 0 (n + 1 - 1)) with n by lia.
  rewrite blk_layout by (fold n; lia). cbn [HBFS.obind].
  assert (Hlast : len (slice content (n * 512) ((n + 1) * 512))
                  = len content mod 512).
  { rewrite len_slice_min by lia. lia. }
  rewrite Hlast.
  replace (n * 512 + len content mod 512) with (len content) by lia.
  destruct (Z.ltb_spec length (len content)); [reflexivity|].
  destruct (Z.ltb_spec length (512 * (n + 1))).
  - assert (Hob : length / 512 = n) by lia.
    rewrite Hob. rewrite blk_layout by (fold n; lia). cbn [HBFS.obind].
    unfold slice_to. rewrite slice_all by lia.
    assert (Hb : HBFS.blk (layout content) n
                 = Ok (slice content (n * 512) ((n + 1) * 512)))
      by (apply blk_layout; fold n; lia).
    rewrite (@set_index_same _ _ _ _ Hn (@blk_nth _ _ _ Hb Hn)).
    rewrite delete_rest_done; [reflexivity|].
    rewrite len_layout. fold n. lia.
  - rewrite blk_out_of_range; [reflexivity|].
    rewrite len_layout. fold n. lia.
Qed.

(** X14: in the block engine, [truncate] of a file whose blocks are laid
    out as [write] lays them out never changes the content store.  For a
    length below the content length it stores size 0; for a length from
    the content length up to the end of the last block's 512-byte range it
    stores the length as the size; for a larger length it raises
    [IndexError] and changes nothing. *)
Theorem X14_block_truncate_keeps_blocks :
  forall (path : string) (length : Z) (s : state) (n : node)
         (content : bytes),
    node_at path s = Some n ->
    dlook (fs_data s) (split path) = Some (VList (layout content)) ->
    0 <= length ->
    (length < len content ->
       exists s', HBFS.truncate path length s = (Ok tt, s')
                  /\ fs_data s' = fs_data s
                  /\ node_at path s' = Some (set_size 0 n))
    /\ (len content <= length < 512 * (len content / 512 + 1) ->
        exists s', HBFS.truncate path length s = (Ok tt, s')
                   /\ fs_data s' = fs_data s
                   /\ node_at path s' = Some (set_size length n))
    /\ (512 * (len content / 512 + 1) <= length ->
        HBFS.truncate path length s = (Raise IndexError, s)).
Proof.
  intros path length s n content Hn Hd Hl. unfold node_at in *.
  assert (Hrun : HBFS.truncate path length s
    = match HBFS.truncate_blocks (layout content) length with
      | Ok (_, length') =>
          (Ok tt, mkState (update (set_size length') (fs_files s) (split path))
                    (fs_data s) (fs_fd s))
      | Raise e => (Raise e, s)
      end).
  { unfold HBFS.truncate, bind, traverse_data.
    rewrite (dwalk_dlook _ _ _ Hd). unfold dload.
    cbn [fs_files fs_data fs_fd]. rewrite Hd.
    cbn [HBFS.blocks_of]. unfold ret, HBFS.lift.
    rewrite (@truncate_blocks_layout content length Hl).
    destruct (length <? len content).
    - unfold traverse, store. cbn [fs_files fs_data fs_fd].
      rewrite Hn. reflexivity.
    - destruct (length <? 512 * (len content / 512 + 1)).
      + unfold dstore, traverse, store. cbn [fs_files fs_data fs_fd].
        rewrite (@dupdate_id _ _ _ _ Hd eq_refl). rewrite Hn. reflexivity.
      + now rewrite state_eta. }
  rewrite Hrun, (@truncate_blocks_layout content length Hl).
  split; [|split].
  - intros H. destruct (Z.ltb_spec length (len content)); [|lia].
    eexists. split; [reflexivity|]. split; [reflexivity|].
    cbn [fs_files]. now apply walk_update.
  - intros H. destruct (Z.ltb_spec length (len content)); [lia|].
    destruct (Z.ltb_spec length (512 * (len content / 512 + 1))); [|lia].
    eexists. split; [reflexivity|]. split; [reflexivity|].
    cbn [fs_files]. now apply walk_update.
  - intros H. pose proof (len_nonneg content).
    pose proof (Z.div_mod (len content) 512 ltac:(lia)).
    pose proof (Z.mod_pos_bound (len content) 512 ltac:(lia)).
    destruct (Z.ltb_spec length (len content)); [lia|].
    destruct (Z.ltb_spec length (512 * (len content / 512 + 1))); [lia|].
    reflexivity.
Qed.

Lemma X14_block_truncate_witness :
  HBFS.truncate "/f" 600 block_abcdef = (Raise IndexError, block_abcdef).
Proof.
  destruct (@X14_block_truncate_keeps_blocks "/f" 600 block_abcdef
              node_abcdef (text "abcdef"))
    as (_ & _ & H);
    [vm_compute; reflexivity | vm_compute; reflexivity | lia |].
  apply H. vm_compute. discriminate.
Defined.

(** X15: in the flat engine, [truncate] of a file kept as a string sets
    the reported size to [length] and leaves the content store, and so the
    content of the file, as it was. *)
Theorem X15_flat_truncate_keeps_content :
  forall (path : string) (length : Z) (s : state) (n : node)
         (buffer : bytes),
    node_at path s = Some n ->
    dlook (fs_data s) (split path) = Some (VStr buffer) ->
    exists s',
      HFS.truncate path length s = (Ok tt, s')
      /\ fs_data s' = fs_data s
      /\ content_at path s' = Some buffer
      /\ node_at path s' = Some (set_size length n).
Proof.
  intros path length s n buffer Hn Hd. unfold node_at in *.
  eexists. split.
  { unfold HFS.truncate, bind, traverse_data.
    rewrite (dwalk_dlook _ _ _ Hd). unfold dload.
    cbn [fs_files fs_data fs_fd]. rewrite Hd.
    cbn [HFS.content]. unfold ret, traverse, store.
    cbn [fs_files fs_data fs_fd]. rewrite Hn. reflexivity. }
  cbn [fs_files fs_data]. split; [reflexivity|]. split.
  - unfold content_at. cbn [fs_data]. now rewrite Hd.
  - now apply walk_update.
Qed.

Lemma X15_flat_truncate_witness :
  exists s',
    HFS.truncate "/f" 2 flat_abcdef = (Ok tt, s')
    /\ content_at "/f" s' = Some (text "abcdef")
    /\ node_at "/f" s' = Some (set_size 2 node_abcdef).
Proof.
  destruct (@X15_flat_truncate_keeps_content "/f" 2 flat_abcdef node_abcdef
              (text "abcdef"))
    as (s' & H1 & _ & H3 & H4);
    [vm_compute; reflexivity | vm_compute; reflexivity |].
  exists s'. repeat split; assumption.
Defined.

(** ** The two parts of a path *)

(** X16: [traverseparent] cuts a path at its last separator: the part
    before it, a separator and the part after it make up the path again,
    and the part after it holds no separator.  A path without a separator
    is its own last part. *)
Theorem X16_traverseparent_cuts_at_last_separator :
  forall (path : string),
    (0 <= rfind path ->
       (parent_part path ++ String slash (target_part path))%string = path
       /\ rfind (target_part path) = -1)
    /\ (rfind path < 0 -> target_part path = path).
Proof.
  intros path. split.
  - unfold parent_part, target_part.
    induction path as [|c r IH]; simpl; [lia|].
    rewrite str_len_String.
    destruct (Z.leb_spec 0 (rfind r)) as [Hr|Hr].
    + intros _. destruct (IH Hr) as [IH1 IH2].
      assert (Hp : str_slice (String c r) 0 (rfind r + 1)
                   = String c (str_slice r 0 (rfind r))).
      { unfold str_slice. simpl. now rewrite slice_cons_0 by lia. }
      assert (Ht : str_slice (String c r) (rfind r + 1 + 1) (str_len r + 1)
                   = str_slice r (rfind r + 1) (str_len r)).
      { unfold str_slice. simpl.
        rewrite slice_cons_S by (pose proof (str_len_nonneg r); lia).
        reflexivity. }
      rewrite Hp, Ht. simpl. now rewrite IH1.
    + destruct (Ascii.eqb c slash) eqn:Ec; [|lia].
      intros _. apply Ascii.eqb_eq in Ec. subst c.
      assert (Hp : str_slice (String slash r) 0 0 = EmptyString).
      { unfold str_slice. now rewrite slice_empty by lia. }
      assert (Ht : str_slice (String slash r) (0 + 1) (str_len r + 1) = r).
      { unfold str_slice. cbn [list_ascii_of_string].
        rewrite slice_cons_S by (pose proof (str_len_nonneg r); lia).
        apply str_slice_all. }
      rewrite Hp, Ht. simpl. split; [reflexivity|].
      pose proof (rfind_lower r). lia.
  - intros H. pose proof (rfind_lower path).
    unfold target_part. replace (rfind path + 1) with 0 by lia.
    apply str_slice_all.
Qed.

(** ** [chown] and [utimens] *)

(** X17: when [path] resolves to a node, [chown] stores the two ids and
    [utimens] stores the two times in that node; the mode, the link count,
    the size, the creation time, the attributes and the children of the
    node stay as they were ([chown] keeps the times, [utimens] keeps the
    ids), and the content store is untouched. *)
Theorem X17_chown_and_utimens_touch_their_fields :
  forall (path : string) (a b : Z) (s : state) (n : node),
    node_at path s = Some n ->
    (exists s' n',
        chown path a b s = (Ok tt, s')
        /\ node_at path s' = Some n'
        /\ st_uid (node_meta n') = Some a
        /\ st_gid (node_meta n') = Some b
        /\ st_atime (node_meta n') = st_atime (node_meta n)
        /\ st_mtime (node_meta n') = st_mtime (node_meta n)
        /\ st_mode (node_meta n') = st_mode (node_meta n)
        /\ st_nlink (node_meta n') = st_nlink (node_meta n)
        /\ st_size (node_meta n') = st_size (node_meta n)
        /\ st_ctime (node_meta n') = st_ctime (node_meta n)
        /\ attrs (node_meta n') = attrs (node_meta n)
        /\ files n' = files n
        /\ fs_data s' = fs_data s)
    /\ (exists s' n',
          utimens path a b s = (Ok tt, s')
          /\ node_at path s' = Some n'
          /\ st_atime (node_meta n') = Some a
          /\ st_mtime (node_meta n') = Some b
          /\ st_uid (node_meta n') = st_uid (node_meta n)
          /\ st_gid (node_meta n') = st_gid (node_meta n)
          /\ st_mode (node_meta n') = st_mode (node_meta n)
          /\ st_nlink (node_meta n') = st_nlink (node_meta n)
          /\ st_size (node_meta n') = st_size (node_meta n)
          /\ st_ctime (node_meta n') = st_ctime (node_meta n)
          /\ attrs (node_meta n') = attrs (node_meta n)
          /\ files n' = files n
          /\ fs_data s' = fs_data s).
Proof.
  intros path a b s n Hn. unfold node_at in *. split.
  - eexists. exists (set_owner a b n). split.
    { unfold chown, bind, traverse, store. rewrite Hn. reflexivity. }
    unfold node_at. cbn [fs_files fs_data].
    rewrite (walk_update _ _ _ Hn).
    destruct n as [[] f]. simpl. repeat split.
  - eexists. exists (set_times a b n). split.
    { unfold utimens, bind, traverse, store. rewrite Hn. reflexivity. }
    unfold node_at. cbn [fs_files fs_data].
    rewrite (walk_update _ _ _ Hn).
    destruct n as [[] f]. simpl. repeat split.
Qed.

Lemma X17_chown_witness :
  exists s' n',
    chown "/f" 1000 100 flat_abcdef = (Ok tt, s')
    /\ node_at "/f" s' = Some n'
    /\ st_uid (node_meta n') = Some 1000
    /\ st_gid (node_meta n') = Some 100.
Proof.
  destruct (@X17_chown_and_utimens_touch_their_fields "/f" 1000 100
              flat_abcdef node_abcdef ltac:(vm_compute; reflexivity))
    as [(s' & n' & H1 & H2 & H3 & H4 & _) _].
  exists s', n'. repeat split; assumption.
Defined.

(** ** [rename] *)

Lemma bind_ok {A B : Type} (m : M A) (k : A -> M B) s a s' :
  m s = (Ok a, s') -> bind m k s = k a s'.
Proof. intros H. unfold bind. now rewrite H. Qed.

(** The part of [rename] after the link counts have been adjusted, for a
    new name in the directory of the old one. *)
Lemma rename_rest factory old new s p kids c m v :
  parent_part new = parent_part old ->
  walk (fs_files s) (split (parent_part old)) = Some p ->
  files p = Some kids ->
  get kids (target_part old) = Some c ->
  dlook (fs_data s) (split (parent_part old)) = Some (VDict m) ->
  get m (target_part old) = Some v ->
  (before <- load (split (parent_part old)) ;;
   moved <- pop_child (split (parent_part old)) (target_part old) ;;
   put_child (split (parent_part old)) (target_part new) moved before ;;
   '(do, do1) <- traverseparent_data factory old ;;
   '(dn, dn1) <- traverseparent_data factory new ;;
   dbefore <- dload dn ;;
   dmoved <- dpop do do1 ;;
   put_item dn dn1 dmoved dbefore) s
  = (Ok tt,
     mkState
       (update
          (fun _ => set_files
                      (set (remove kids (target_part old))
                         (target_part new) c) p)
          (fs_files s) (split (parent_part old)))
       (dupdate
          (fun _ => VDict (set (remove m (target_part old))
                             (target_part new) v))
          (fs_data s) (split (parent_part old)))
       (fs_fd s)).
Proof.
  intros Hpar Hp Hk Hc Hd Hv.
  set (pc := split (parent_part old)) in *.
  set (h1 := set_files (remove kids (target_part old))).
  pose proof (walk_update h1 _ _ Hp) as Hp1.
  erewrite bind_ok by (unfold load; rewrite Hp; reflexivity).
  erewrite bind_ok; cycle 1.
  { unfold pop_child, children. erewrite bind_ok; cycle 1.
    { erewrite bind_ok by (unfold load; rewrite Hp; reflexivity).
      rewrite Hk. reflexivity. }
    rewrite Hc. erewrite bind_ok by reflexivity. reflexivity. }
  erewrite bind_ok; cycle 1.
  { unfold put_child. cbn [fs_files]. fold h1. rewrite Hp1.
    unfold h1 at 1. rewrite files_set_files. reflexivity. }
  cbn [fs_files fs_data fs_fd]. fold h1.
  erewrite bind_ok; cycle 1.
  { unfold traverseparent_data. cbn [fs_files fs_data fs_fd]. fold pc.
    rewrite (dwalk_dlook _ _ _ Hd). reflexivity. }
  cbv beta iota zeta. cbn [fs_files fs_data fs_fd].
  erewrite bind_ok; cycle 1.
  { unfold traverseparent_data. cbn [fs_files fs_data fs_fd].
    rewrite Hpar. fold pc.
    rewrite (dwalk_dlook _ _ _ Hd). reflexivity. }
  cbv beta iota zeta. cbn [fs_files fs_data fs_fd].
  erewrite bind_ok by (unfold dload; cbn [fs_data]; rewrite Hd; reflexivity).
  erewrite bind_ok; cycle 1.
  { unfold dpop. erewrite bind_ok
      by (unfold dload; cbn [fs_data]; rewrite Hd; reflexivity).
    cbv beta iota. rewrite Hv. erewrite bind_ok by reflexivity.
    reflexivity. }
  cbn [fs_files fs_data fs_fd].
  unfold put_item, setitem, dload, dstore, bind. cbn [fs_files fs_data fs_fd].
  rewrite (dlook_dupdate _ _ _ Hd). cbn [fs_files fs_data fs_fd].
  rewrite (dupdate_dupdate _ _ _ _ Hd).
  rewrite (update_update _ _ _ _ Hp).
  rewrite (update_at _ _ _ Hp).
  unfold h1. destruct p as [mt fl]. reflexivity.
Qed.

Lemma nlink_back p :
  set_nlink (st_nlink (node_meta
                         (set_nlink (st_nlink (node_meta p) - 1) p)) + 1)
    (set_nlink (st_nlink (node_meta p) - 1) p) = p.
Proof. destruct p as [[] f]. simpl. now rewrite Z.sub_add. Qed.

(** X18: [rename] to a new name in the same directory, for an entry that
    the name space and the content store both have: it succeeds;
    afterwards the new path resolves to the very node the old path named
    (mode, size, times and attributes included) and the content store has
    the old value under the new path; the parent keeps its metadata, link
    count included, whether the entry is a file or a directory; the other
    names of the directory are as before, and the old name is gone when
    the names differ. *)
Theorem X18_rename_within_directory :
  forall (factory : dval) (old new : string) (s : state) (p c : node)
         (kids : dict node) (m : dict dval) (v : dval),
    parent_part new = parent_part old ->
    0 <= rfind new ->
    nonempty (target_part new) = true ->
    walk (fs_files s) (split (parent_part old)) = Some p ->
    files p = Some kids ->
    get kids (target_part old) = Some c ->
    dlook (fs_data s) (split (parent_part old)) = Some (VDict m) ->
    get m (target_part old) = Some v ->
    exists s' p',
      rename factory old new s = (Ok tt, s')
      /\ node_at new s' = Some c
      /\ dlook (fs_data s') (split new) = Some v
      /\ walk (fs_files s') (split (parent_part old)) = Some p'
      /\ node_meta p' = node_meta p
      /\ files p'
         = Some (set (remove kids (target_part old)) (target_part new) c)
      /\ (forall k, k <> target_part old -> k <> target_part new ->
            get (set (remove kids (target_part old)) (target_part new) c) k
            = get kids k)
      /\ (target_part old <> target_part new ->
          NoDup (map fst kids) ->
          get (set (remove kids (target_part old)) (target_part new) c)
            (target_part old) = None)
      /\ fs_fd s' = fs_fd s.
Proof.
  intros factory old new s p c kids m v Hpar Hr Ht Hp Hk Hc Hd Hv.
  set (K := set (remove kids (target_part old)) (target_part new) c).
  assert (Hrun : rename factory old new s
    = (Ok tt,
       mkState
         (update (fun _ => set_files K p) (fs_files s)
            (split (parent_part old)))
         (dupdate
            (fun _ => VDict (set (remove m (target_part old))
                               (target_part new) v))
            (fs_data s) (split (parent_part old)))
         (fs_fd s))).
  { unfold rename.
    erewrite bind_ok
      by (unfold traverseparent; rewrite Hp; reflexivity).
    cbv beta iota zeta.
    erewrite bind_ok
      by (unfold traverseparent; rewrite Hpar, Hp; reflexivity).
    cbv beta iota zeta.
    erewrite bind_ok; cycle 1.
    { unfold child, children.
      erewrite bind_ok; cycle 1.
      { erewrite bind_ok by (unfold load; rewrite Hp; reflexivity).
        rewrite Hk. reflexivity. }
      rewrite Hc. reflexivity. }
    destruct (Z.land (st_mode (node_meta c)) 258048 =? S_IFDIR).
    - erewrite bind_ok; cycle 1.
      { erewrite bind_ok by reflexivity. reflexivity. }
      cbn [fs_files fs_data fs_fd].
      rewrite (update_update _ _ _ _ Hp).
      rewrite (@update_id _ _ _ _ Hp (nlink_back p)).
      rewrite state_eta.
      apply (@rename_rest factory old new s p kids c m v Hpar Hp Hk Hc Hd Hv).
    - erewrite bind_ok by reflexivity.
      apply (@rename_rest factory old new s p kids c m v Hpar Hp Hk Hc Hd Hv).
  }
  eexists. exists (set_files K p). split; [exact Hrun|].
  cbn [fs_files fs_data fs_fd].
  split; [|split; [|split; [|split; [|split; [|split; [|split]]]]]].
  - unfold node_at. cbn [fs_files]. rewrite <- Hpar.
    rewrite (split_parent _ Hr), walk_app. rewrite Hpar.
    rewrite (walk_update _ _ _ Hp). rewrite walk_child by exact Ht.
    rewrite files_set_files. apply get_set_same.
  - rewrite <- Hpar. rewrite (split_parent _ Hr), dlook_app. rewrite Hpar.
    rewrite (dlook_dupdate _ _ _ Hd). rewrite dlook_child by exact Ht.
    apply get_set_same.
  - exact (walk_update (fun _ => set_files K p) _ _ Hp).
  - apply meta_set_files.
  - apply files_set_files.
  - intros k Ho Hn. unfold K.
    rewrite get_set_other by congruence.
    apply get_remove_other. congruence.
  - intros Hne Hnd. unfold K.
    rewrite get_set_other by congruence.
    now apply get_remove_same.
  - reflexivity.
Qed.

Lemma X18_rename_witness :
  exists s',
    HFS.rename "/f" "/g" flat_abcdef = (Ok tt, s')
    /\ node_at "/g" s' = Some node_abcdef
    /\ content_at "/g" s' = Some (text "abcdef").
Proof.
  destruct (@X18_rename_within_directory HFS.factory "/f" "/g" flat_abcdef
              (fs_files flat_abcdef) node_abcdef
              [("f"%string, node_abcdef)]
              [("f"%string, VStr (text "abcdef"))] (VStr (text "abcdef")))
    as (s' & p' & H1 & H2 & H3 & _);
    [vm_compute; first [reflexivity | discriminate] .. |].
  exists s'. split; [exact H1|]. split; [exact H2|].
  unfold content_at. now rewrite H3.
Defined.

(** ** Reading a file that was never written *)

(** The inserting walk on a name that the directory does not have. *)
Lemma dwalk_insert factory tar comps : forall p m,
  dlook p comps = Some (VDict m) ->
  nonempty tar = true ->
  get m tar = None ->
  dwalk factory p (comps ++ [tar])
  = (Ok factory, dupdate (fun _ => VDict (set m tar factory)) p comps).
Proof.
  induction comps as [|i rest IH]; simpl; intros p m H Ht Hg.
  - inversion H; subst p. rewrite Ht, Hg. reflexivity.
  - destruct (nonempty i); [|auto].
    destruct p as [s|l|d]; try discriminate.
    destruct (get d i) as [c|] eqn:Eg; [|discriminate].
    now rewrite (IH _ _ H Ht Hg).
Qed.

Lemma slice_nil {A : Type} a b : slice (@nil A) a b = [].
Proof. unfold slice. now rewrite skipn_nil, firstn_nil. Qed.

Lemma read_blocks_nil size offset :
  HBFS.read_blocks [] size offset = Raise IndexError.
Proof.
  unfold HBFS.read_blocks.
  assert (Hb : forall i, HBFS.blk [] i = Raise IndexError).
  { intros i. unfold HBFS.blk, index, norm.
    change (len (@nil bytes)) with 0.
    destruct (Z.ltb_spec i 0).
    - destruct (Z.leb_spec 0 (i + 0)); [lia|reflexivity].
    - destruct (Z.leb_spec 0 i); [|lia].
      destruct (Z.ltb_spec i 0); [lia|reflexivity]. }
  destruct (size <=? _); [now rewrite Hb|].
  destruct (_ && _); [|now rewrite Hb].
  destruct (len [] <? _); now rewrite !Hb.
Qed.

(** X19: [read] of a file for which the content store has no entry yet (a
    file that was created and never written), its parent directory being
    in the store: the lookup inserts the name with the empty default.  The
    flat engine then returns the empty string; the block engine raises
    [IndexError] whatever the size and the offset.  The name space is
    untouched in both. *)
Theorem X19_read_of_unwritten_file :
  forall (path : string) (size offset : Z) (s : state) (m : dict dval),
    0 <= rfind path ->
    nonempty (target_part path) = true ->
    dlook (fs_data s) (split (parent_part path)) = Some (VDict m) ->
    get m (target_part path) = None ->
    (exists s',
        HFS.read path size offset s = (Ok [], s')
        /\ dlook (fs_data s') (split path) = Some (VStr [])
        /\ fs_files s' = fs_files s)
    /\ (exists s',
          HBFS.read path size offset s = (Raise IndexError, s')
          /\ dlook (fs_data s') (split path) = Some (VList [])
          /\ fs_files s' = fs_files s).
Proof.
  intros path size offset s m Hr Ht Hd Hg.
  assert (Hl : forall factory,
             dlook (dupdate
                      (fun _ => VDict (set m (target_part path) factory))
                      (fs_data s) (split (parent_part path)))
               (split path) = Some factory).
  { intros factory.
    rewrite (split_parent _ Hr), dlook_app, (dlook_dupdate _ _ _ Hd).
    rewrite dlook_child by exact Ht. apply get_set_same. }
  split.
  - eexists. split.
    { unfold HFS.read, bind, traverse_data.
      rewrite (split_parent _ Hr) at 1.
      rewrite (@dwalk_insert HFS.factory _ _ _ _ Hd Ht Hg).
      unfold dload. cbn [fs_files fs_data fs_fd].
      rewrite (Hl HFS.factory). cbn [HFS.factory HFS.content].
      unfold ret. now rewrite slice_nil. }
    cbn [fs_files fs_data]. split; [apply (Hl HFS.factory)|reflexivity].
  - eexists. split.
    { unfold HBFS.read, bind, traverse_data.
      rewrite (split_parent _ Hr) at 1.
      rewrite (@dwalk_insert HBFS.factory _ _ _ _ Hd Ht Hg).
      unfold dload. cbn [fs_files fs_data fs_fd].
      rewrite (Hl HBFS.factory). cbn [HBFS.factory HBFS.blocks_of].
      unfold ret, HBFS.lift. rewrite read_blocks_nil. reflexivity. }
    cbn [fs_files fs_data]. split; [apply (Hl HBFS.factory)|reflexivity].
Qed.

Lemma X19_read_of_unwritten_file_witness :
  (exists s', HFS.read "/a" 4096 0 created_a = (Ok [], s'))
  /\ (exists s', HBFS.read "/a" 4096 0 created_a = (Raise IndexError, s')).
Proof.
  destruct (@X19_read_of_unwritten_file "/a" 4096 0 created_a [])
    as [(s1 & H1 & _) (s2 & H2 & _)];
    [vm_compute; first [reflexivity | discriminate] .. |].
  split; eauto.
Defined.

(** ** [write] that starts within the old content *)

(** On a layout, for an offset within the content, the string [write]
    builds: the content up to the offset, the data, the rest of the block
    the offset lies in, and the content from the start of that block. *)
Lemma splice_layout_exact content data offset :
  0 <= offset <= len content ->
  HBFS.splice (layout content) data offset
  = Ok (slice content 0 offset ++ data
          ++ slice content offset ((offset / 512 + 1) * 512)
          ++ slice_from content (offset / 512 * 512)).
Proof.
  intros Ho. unfold HBFS.splice, HBFS.BLOCKSIZE.
  pose proof (Z.div_mod offset 512 ltac:(lia)) as Hdm.
  pose proof (Z.mod_pos_bound offset 512 ltac:(lia)) as Hrem.
  pose proof (Z.div_mod (len content) 512 ltac:(lia)) as Hcdm.
  pose proof (Z.mod_pos_bound (len content) 512 ltac:(lia)) as Hcrem.
  set (ob := offset / 512) in *. set (rem := offset mod 512) in *.
  set (n := len content / 512) in *.
  assert (Hob : 0 <= ob <= n) by lia.
  rewrite append_blocks_layout by (fold n; lia). cbn [HBFS.obind app].
  rewrite blk_layout by (fold n; lia). cbn [HBFS.obind].
  rewrite Z2Nat.id, Z.max_r by lia.
  assert (Hlen : len (slice content (ob * 512) ((ob + 1) * 512))
                 = Z.min ((ob + 1) * 512) (len content) - ob * 512).
  { apply len_slice_min; lia. }
  destruct (Z.ltb_spec (len (slice content (ob * 512) ((ob + 1) * 512))) rem);
    [lia|].
  rewrite len_layout. fold n.
  rewrite append_blocks_layout by (fold n; lia).
  unfold slice_to, slice_from. rewrite Hlen.
  rewrite !slice_slice by lia.
  f_equal. rewrite <- !app_assoc.
  rewrite app_assoc, slice_glue by lia.
  replace (ob * 512 + rem) with offset by lia.
  do 2 f_equal. rewrite Z2Nat.id by lia. f_equal.
  - destruct (Z.le_ge_cases ((ob + 1) * 512) (len content)).
    + rewrite Z.min_l by lia. f_equal. lia.
    + rewrite Z.min_r by lia.
      replace (ob * 512 + (len content - ob * 512)) with (len content)
        by lia.
      symmetry. apply slice_clip; lia.
  - apply slice_clip; lia.
Qed.

(** X21: a write that starts within the old content.  The flat engine
    keeps the content before the offset and the data and drops what
    followed, so the content gets shorter when the write ends inside it.
    The block engine, on the blocks [write] lays out for [buffer], inserts
    the data at the offset instead of overwriting, and goes on with the
    rest of the block the offset lies in and then with the content from
    the start of that block again: the new content is longer than
    [buffer] by [len(data)] and by the length of that block. *)
Theorem X21_write_within_content :
  forall (path : string) (data : bytes) (offset : Z) (s : state) (n : node)
         (m : dict dval) (buffer : bytes),
    node_at path s = Some n ->
    0 <= rfind path ->
    nonempty (target_part path) = true ->
    dlook (fs_data s) (split (parent_part path)) = Some (VDict m) ->
    0 <= offset <= len buffer ->
    (stored HFS.factory m (target_part path) = VStr buffer ->
     exists s',
       HFS.write path data offset s = (Ok (len data), s')
       /\ content_at path s' = Some (slice buffer 0 offset ++ data)
       /\ node_at path s' = Some (set_size (offset + len data) n))
    /\ (get m (target_part path) = Some (VList (layout buffer)) ->
        exists s' c,
          HBFS.write path data offset s = (Ok (len data), s')
          /\ content_at path s' = Some c
          /\ node_at path s' = Some (set_size (len c) n)
          /\ c = slice buffer 0 offset ++ data
                 ++ slice buffer offset
                      ((offset / HBFS.BLOCKSIZE + 1) * HBFS.BLOCKSIZE)
                 ++ slice_from buffer
                      (offset / HBFS.BLOCKSIZE * HBFS.BLOCKSIZE)
          /\ len c
             = len buffer + len data
               + len (slice buffer
                        (offset / HBFS.BLOCKSIZE * HBFS.BLOCKSIZE)
                        ((offset / HBFS.BLOCKSIZE + 1) * HBFS.BLOCKSIZE))).
Proof.
  intros path data offset s n m buffer Hn Hr Ht Hd Ho.
  pose proof (len_nonneg data) as Hdata.
  split.
  - intros Hb.
    destruct (@HFS_write_run _ data offset _ _ _ _ Hn Hr Ht Hd Hb)
      as (s' & Hw & Hc & Hs & _).
    unfold slice_to in *. rewrite len_app, len_slice in Hs by lia.
    rewrite Z.sub_0_r in Hs.
    exists s'. unfold content_at. now rewrite Hc.
  - intros Hb.
    assert (Hne : layout buffer <> []).
    { intros E. pose proof (len_layout buffer) as Hl. rewrite E in Hl.
      assert (0 <= len buffer / 512) by (apply Z.div_pos; lia).
      change (len (@nil bytes)) with 0 in Hl. lia. }
    pose proof (@splice_layout_exact buffer data offset Ho) as Hsp.
    destruct (@HBFS_write_splice _ _ _ _ _ _ _ _ Hn Hr Ht Hd Hb Hne Hsp)
      as (s' & Hw & Hc & Hs & _).
    eexists s', _. split; [exact Hw|].
    split; [unfold content_at; rewrite Hc; simpl;
            now rewrite concat_layout|].
    split; [exact Hs|]. unfold HBFS.BLOCKSIZE.
    split; [reflexivity|].
    pose proof (Z.div_mod offset 512 ltac:(lia)) as Hdm.
    pose proof (Z.mod_pos_bound offset 512 ltac:(lia)) as Hrem.
    assert (Hlen : len (slice buffer 0 offset ++ data
                          ++ slice buffer offset ((offset / 512 + 1) * 512)
                          ++ slice_from buffer (offset / 512 * 512))
                   = len buffer + len data
                     + len (slice buffer (offset / 512 * 512)
                              ((offset / 512 + 1) * 512))).
    { unfold slice_from. rewrite !len_app.
      rewrite len_slice by lia.
      rewrite !len_slice_min by lia.
      lia. }
    exact Hlen.
Qed.

Lemma X21_write_within_content_witness :
  (exists s',
      HFS.write "/f" (text "X") 2 flat_abcdef = (Ok 1, s')
      /\ content_at "/f" s' = Some (text "abX"))
  /\ (exists s',
        HBFS.write "/f" (text "X") 2 block_abcdef = (Ok 1, s')
        /\ content_at "/f" s' = Some (text "abXcdefabcdef")).
Proof.
  destruct (@X21_write_within_content "/f" (text "X") 2 flat_abcdef
              node_abcdef [("f"%string, VStr (text "abcdef"))]
              (text "abcdef"))
    as [H1 _];
    [vm_compute; first [reflexivity | discriminate | (split; discriminate)]
       .. |].
  destruct (@X21_write_within_content "/f" (text "X") 2 block_abcdef
              node_abcdef [("f"%string, VList [text "abcdef"])]
              (text "abcdef"))
    as [_ H2];
    [vm_compute; first [reflexivity | discriminate | (split; discriminate)]
       .. |].
  destruct (H1 eq_refl) as (s1 & Hw1 & Hc1 & _).
  destruct (H2 eq_refl) as (s2 & c & Hw2 & Hc2 & _ & Hc & _).
  split; [exists s1; split; assumption|].
  exists s2. split; [exact Hw2|]. rewrite Hc2, Hc. reflexivity.
Defined.

(** ** Failure of [mkdir], [symlink] and [write] *)


